(** * WKC MCP server: the natural-language dispatcher, the order intake
      pipeline and the document-store client, embedded in Rocq.

    Sources embedded here:
    - [gemini_agent.py]   (class GeminiAgent)    -> Module GeminiAgent
    - [gemini_service.py] (class GeminiService)  -> Module GeminiService
    - [firebase_client.py] (class FirebaseClient) -> Module FirebaseClient
    - [main.py] (the endpoints but /process_chat) -> Module Main

    Python values are a small inductive universe, dicts are insertion-ordered
    association lists, exceptions and the mutable outside world (document
    store, clock, the log of remote calls) are threaded by a state and
    exception monad.  What the code takes from libraries outside the
    repository (the hosted model, [json], [repr], the identifiers and
    timestamps of the store) is a field of the class [world]; the theorems
    below hold for every world.  Strings are sequences of 8-bit characters;
    texts are taken to be ASCII where case or whitespace matters.  Printing
    and logging are not modelled. *)

From Stdlib Require Import ZArith String Ascii List Bool Lia.
From Stdlib Require Import DecimalString.
From Stdlib Require Import Floats.PrimFloat Floats.SpecFloat Floats.FloatOps.
Import ListNotations.

Set Warnings "-register-all,-inexact-float".

Local Open Scope string_scope.
Local Open Scope Z_scope.

(* ------------------------------------------------------------------ *)
(** ** Strings *)

Module Str.

(** The line feed and the double quote, which string literals of this file
    never contain directly. *)
Definition nl : string := String (ascii_of_nat 10) EmptyString.
Definition quote_char : ascii := ascii_of_nat 34.

(** [dq s] is [s] with every backtick replaced by a double quote: JSON texts
    and prompts are written with backticks below. *)
Fixpoint dq (s : string) : string :=
  match s with
  | EmptyString => EmptyString
  | String c r =>
      String (if Ascii.eqb c (ascii_of_nat 96) then quote_char else c) (dq r)
  end.

Definition unlines (ls : list string) : string := String.concat nl ls.

(** Python [str.isspace] on the ASCII range: TAB, LF, VT, FF, CR, the four
    separators FS GS RS US and the space. *)
Definition isspace (c : ascii) : bool :=
  let n := nat_of_ascii c in
  ((9 <=? n) && (n <=? 13) || (28 <=? n) && (n <=? 32))%nat.

Fixpoint lstrip (s : string) : string :=
  match s with
  | EmptyString => EmptyString
  | String c r => if isspace c then lstrip r else s
  end.

Fixpoint rstrip (s : string) : string :=
  match s with
  | EmptyString => EmptyString
  | String c r =>
      match rstrip r with
      | EmptyString => if isspace c then EmptyString else String c EmptyString
      | r' => String c r'
      end
  end.

(** [s.strip()] *)
Definition strip (s : string) : string := rstrip (lstrip s).

(** A query "consists only of whitespace" (the empty string included). *)
Fixpoint all_space (s : string) : bool :=
  match s with
  | EmptyString => true
  | String c r => isspace c && all_space r
  end.

(** [s[:n]] *)
Fixpoint take (n : nat) (s : string) : string :=
  match n, s with
  | S n', String c r => String c (take n' r)
  | _, _ => EmptyString
  end.

Definition lower_char (c : ascii) : ascii :=
  let n := nat_of_ascii c in
  if ((65 <=? n) && (n <=? 90))%nat then ascii_of_nat (n + 32) else c.

(** [s.lower()] on ASCII text. *)
Fixpoint lower (s : string) : string :=
  match s with
  | EmptyString => EmptyString
  | String c r => String (lower_char c) (lower r)
  end.

(** [needle in hay] for strings. *)
Fixpoint contains (needle hay : string) : bool :=
  String.prefix needle hay ||
  match hay with
  | EmptyString => false
  | String _ r => contains needle r
  end.

(** [str(n)] for a Python integer. *)
Definition of_Z (z : Z) : string := NilZero.string_of_int (Z.to_int z).

(** *** [re.search(r'\{.*\}', text, re.DOTALL)]

    With DOTALL the greedy [.*] runs over line breaks, so the leftmost match
    starts at the first opening brace of the text and ends at the last
    closing brace after it; there is no match when no closing brace follows
    the first opening brace. *)
Fixpoint from_first_open (s : string) : option string :=
  match s with
  | EmptyString => None
  | String c r => if Ascii.eqb c "{" then Some s else from_first_open r
  end.

Fixpoint through_last_close (s : string) : option string :=
  match s with
  | EmptyString => None
  | String c r =>
      match through_last_close r with
      | Some m => Some (String c m)
      | None => if Ascii.eqb c "}" then Some (String c EmptyString) else None
      end
  end.

Definition re_search_braces (text : string) : option string :=
  match from_first_open text with
  | None => None
  | Some s => through_last_close s
  end.

(** *** The scan the specification describes

    "The first balanced brace-delimited region": starting at an opening
    brace, the text up to the closing brace that brings the nesting depth
    back to zero.  [balanced_prefix d s] reads [s] at depth [d]. *)
Fixpoint balanced_prefix (depth : nat) (s : string) : option string :=
  match s with
  | EmptyString => None
  | String c r =>
      if Ascii.eqb c "{" then option_map (String c) (balanced_prefix (S depth) r)
      else if Ascii.eqb c "}" then
        match depth with
        | O => None
        | S O => Some (String c EmptyString)
        | S d => option_map (String c) (balanced_prefix d r)
        end
      else option_map (String c) (balanced_prefix depth r)
  end.

Fixpoint first_balanced_region (s : string) : option string :=
  match s with
  | EmptyString => None
  | String c r =>
      if Ascii.eqb c "{" then
        match balanced_prefix 0 s with
        | Some m => Some m
        | None => first_balanced_region r
        end
      else first_balanced_region r
  end.

End Str.

(* ------------------------------------------------------------------ *)
(** ** Python values *)

(** [PDatetime n] is the [datetime] returned by the [n]-th reading of the
    clock.  Every dict of the program has string keys; a dict keeps its
    insertion order. *)
Inductive pyval : Type :=
| PNone
| PBool (b : bool)
| PInt (z : Z)
| PFloat (f : float)
| PStr (s : string)
| PDatetime (n : nat)
| PList (l : list pyval)
| PDict (d : list (string * pyval)).

Definition dict : Type := list (string * pyval).

Fixpoint dict_get (k : string) (d : dict) : option pyval :=
  match d with
  | [] => None
  | (k', v) :: r => if String.eqb k k' then Some v else dict_get k r
  end.

(** [d[k] = v]: replaces in place, or appends a new last entry. *)
Fixpoint dict_set (k : string) (v : pyval) (d : dict) : dict :=
  match d with
  | [] => [(k, v)]
  | (k', v') :: r =>
      if String.eqb k k' then (k, v) :: r else (k', v') :: dict_set k v r
  end.

Definition dict_has (k : string) (d : dict) : bool :=
  match dict_get k d with Some _ => true | None => false end.

(** [d.get(k, default)] *)
Definition dict_get_default (k : string) (default : pyval) (d : dict) : pyval :=
  match dict_get k d with Some v => v | None => default end.

(** [d.update(e)] *)
Definition dict_update (d e : dict) : dict :=
  fold_left (fun acc kv => dict_set (fst kv) (snd kv) acc) e d.

(** Truth value of an object ([bool(v)]). *)
Definition truthy (v : pyval) : bool :=
  match v with
  | PNone => false
  | PBool b => b
  | PInt z => negb (z =? 0)
  | PFloat f => negb (PrimFloat.eqb f 0%float)
  | PStr s => negb (String.eqb s EmptyString)
  | PDatetime _ => true
  | PList l => match l with [] => false | _ => true end
  | PDict d => match d with [] => false | _ => true end
  end.

(** Lists and dicts are unhashable: using one as a dict key or on the left of
    [in <dict>] raises TypeError. *)
Definition hashable (v : pyval) : bool :=
  match v with
  | PList _ | PDict _ => false
  | _ => true
  end.

Definition type_name (v : pyval) : string :=
  match v with
  | PNone => "NoneType"
  | PBool _ => "bool"
  | PInt _ => "int"
  | PFloat _ => "float"
  | PStr _ => "str"
  | PDatetime _ => "datetime.datetime"
  | PList _ => "list"
  | PDict _ => "dict"
  end.

(** The integer a float stands for, when it stands for one (exact). *)
Definition float_to_Z (f : float) : option Z :=
  match Prim2SF f with
  | S754_zero _ => Some 0
  | S754_finite s m e =>
      let a := if s then Z.neg m else Z.pos m in
      if 0 <=? e then Some (a * 2 ^ e)
      else if a mod 2 ^ (- e) =? 0 then Some (a / 2 ^ (- e)) else None
  | _ => None
  end.

Definition Z_eq_float (z : Z) (f : float) : bool :=
  match float_to_Z f with Some y => z =? y | None => false end.

(** Python [==] on the values of the universe; [bool] is a subclass of
    [int], and integers compare with floats by value. *)
Fixpoint py_eq (a b : pyval) {struct a} : bool :=
  let fix list_eq (xs ys : list pyval) {struct xs} : bool :=
    match xs, ys with
    | [], [] => true
    | x :: xs', y :: ys' => py_eq x y && list_eq xs' ys'
    | _, _ => false
    end in
  let fix sub_dict (xs : dict) (ys : dict) {struct xs} : bool :=
    match xs with
    | [] => true
    | (k, x) :: xs' =>
        match dict_get k ys with
        | Some y => py_eq x y && sub_dict xs' ys
        | None => false
        end
    end in
  match a, b with
  | PNone, PNone => true
  | PBool x, PBool y => Bool.eqb x y
  | PBool x, PInt y => (if x then 1 else 0) =? y
  | PInt x, PBool y => x =? (if y then 1 else 0)
  | PBool x, PFloat y => Z_eq_float (if x then 1 else 0) y
  | PFloat x, PBool y => Z_eq_float (if y then 1 else 0) x
  | PInt x, PInt y => x =? y
  | PInt x, PFloat y => Z_eq_float x y
  | PFloat x, PInt y => Z_eq_float y x
  | PFloat x, PFloat y => PrimFloat.eqb x y
  | PStr x, PStr y => String.eqb x y
  | PDatetime x, PDatetime y => Nat.eqb x y
  | PList x, PList y => list_eq x y
  | PDict x, PDict y => Nat.eqb (length x) (length y) && sub_dict x y
  | _, _ => false
  end.

(* ------------------------------------------------------------------ *)
(** ** Exceptions, the outside world, and the monad that threads them *)

(** The exception classes the program can meet.  All are subclasses of
    [Exception]; [JSONDecodeError] is the only one a handler of the program
    names ([except json.JSONDecodeError]), and [HTTPException] the only one
    an endpoint lets through ([except HTTPException: raise]). *)
Inductive exn_class : Type :=
| JSONDecodeError
| TypeError
| AttributeError
| ValueError
| ZeroDivisionError
| KeyError
| NotFound
| RemoteError
| HTTPException (status_code : Z).

(** [exn_msg e] is [str(e)] (for an [HTTPException], its [detail]). *)
Record exn : Type := mk_exn { exn_cls : exn_class; exn_msg : string }.

Definition is_JSONDecodeError (e : exn) : bool :=
  match exn_cls e with JSONDecodeError => true | _ => false end.

Definition is_HTTPException (e : exn) : bool :=
  match exn_cls e with HTTPException _ => true | _ => false end.

(** A remote call issued by the process: to the text-generation client or to
    the document store.  The trace of a run lists them, oldest first. *)
Inductive event : Type :=
| EvGenerate (prompt : string)
| EvAdd (collection : string) (data : dict)
| EvGet (collection : string) (document : option string)
| EvUpdate (collection : string) (document : option string) (data : dict)
| EvDelete (collection : string) (document : option string)
| EvStream (collection field : string) (value : pyval)
           (window : option (pyval * pyval)) (descending_by : option string).

Definition is_generate (e : event) : bool :=
  match e with EvGenerate _ => true | _ => false end.

(** The document store (two collections of documents, each a store-assigned
    identifier with its fields, in the order the store streams them), the
    clock, and the trace.  [fault = Some e] is a store that is unreachable:
    every call to it raises [e]. *)
Record state : Type := mk_state {
  products : list (string * dict);
  orders : list (string * dict);
  added : nat;
  ticks : nat;
  fault : option exn;
  trace : list event
}.

(** What the program takes from outside its own source:
    - [generate_content]: the hosted model, [self.model.generate_content(p)]
      followed by [response.text]; it answers with a text or raises, and may
      depend on everything that happened before (the trace);
    - [json_loads]: [json.loads], [inl msg] standing for a [JSONDecodeError]
      whose [str] is [msg];
    - [json_dumps_indent2]: [json.dumps(v, indent=2)];
    - [py_repr]: [repr] of floats, datetimes, lists and dicts;
    - [new_id]: the identifier the store assigns to the [n]-th added document;
    - [isoformat]: [datetime.isoformat()] of the [n]-th reading of the clock. *)
Class world : Type := mk_world {
  generate_content : list event -> string -> exn + string;
  json_loads : string -> string + pyval;
  json_dumps_indent2 : pyval -> string;
  py_repr : pyval -> string;
  new_id : nat -> string;
  isoformat : nat -> string
}.

Inductive outcome (A : Type) : Type :=
| Ret (a : A)
| Raise (e : exn).
Arguments Ret {A} a.
Arguments Raise {A} e.

(** A computation: it returns or raises, and leaves a new state either way
    (what was written before an exception stays written). *)
Definition M (A : Type) : Type := state -> outcome A * state.

Definition ret {A} (a : A) : M A := fun st => (Ret a, st).
Definition raise {A} (e : exn) : M A := fun st => (Raise e, st).

Definition bind {A B} (c : M A) (k : A -> M B) : M B :=
  fun st =>
    match c st with
    | (Ret a, st') => k a st'
    | (Raise e, st') => (Raise e, st')
    end.

(** [try: c / except Exception as e: h e] *)
Definition try_except {A} (c : M A) (h : exn -> M A) : M A :=
  fun st =>
    match c st with
    | (Ret a, st') => (Ret a, st')
    | (Raise e, st') => h e st'
    end.

(** [try: c / except <class> as e: h e], the class given by a test. *)
Definition try_except_if {A} (test : exn -> bool) (c : M A) (h : exn -> M A)
  : M A :=
  try_except c (fun e => if test e then h e else raise e).

Declare Scope py_scope.
Delimit Scope py_scope with py.
Notation "x <- c ;; k" := (bind c (fun x => k))
  (at level 100, c at next level, right associativity) : py_scope.
Notation "c ;;; k" := (bind c (fun _ => k))
  (at level 100, right associativity) : py_scope.
Local Open Scope py_scope.

Definition emit (e : event) : M unit :=
  fun st =>
    (Ret tt, mk_state (products st) (orders st) (added st) (ticks st)
                      (fault st) (trace st ++ [e])).

(** [datetime.utcnow()]: the next reading of the clock. *)
Definition utcnow : M nat :=
  fun st =>
    (Ret (ticks st), mk_state (products st) (orders st) (added st)
                              (S (ticks st)) (fault st) (trace st)).

Definition type_error (msg : string) : exn := mk_exn TypeError msg.

(** [str(v)], as an f-string formats [v]. *)
Definition py_str `{world} (v : pyval) : string :=
  match v with
  | PNone => "None"
  | PBool true => "True"
  | PBool false => "False"
  | PInt z => Str.of_Z z
  | PStr s => s
  | _ => py_repr v
  end.

(** An operand used as an integer ([page - 1], [... // limit], a query
    window).  [bool] is an [int]; the model raises a TypeError at the first
    arithmetic use of anything else. *)
Definition as_int (v : pyval) : M Z :=
  match v with
  | PInt z => ret z
  | PBool b => ret (if b then 1 else 0)
  | _ => raise (type_error ("unsupported operand type(s): '" ++ type_name v
                            ++ "' and 'int'"))
  end.

(** [v.get(k, default)]: only a dict has [get]. *)
Definition py_get (v : pyval) (k : string) (default : pyval) : M pyval :=
  match v with
  | PDict d => ret (dict_get_default k default d)
  | _ => raise (mk_exn AttributeError
                  ("'" ++ type_name v ++ "' object has no attribute 'get'"))
  end.

(* ------------------------------------------------------------------ *)
(** ** The document store (Firestore, as the client library presents it)

    Not code of this repository: the operations the program calls, with the
    behaviour the client library documents.  Identifiers are opaque keys. *)

Module Store.

Definition collection (name : string) (st : state) : list (string * dict) :=
  if String.eqb name "products" then products st
  else if String.eqb name "orders" then orders st
  else [].

Definition set_collection (name : string) (docs : list (string * dict))
  (st : state) : state :=
  if String.eqb name "products" then
    mk_state docs (orders st) (added st) (ticks st) (fault st) (trace st)
  else if String.eqb name "orders" then
    mk_state (products st) docs (added st) (ticks st) (fault st) (trace st)
  else st.

(** Every call is recorded, then fails if the store is unreachable. *)
Definition call (e : event) : M unit :=
  emit e ;;;
  fun st => match fault st with
            | Some x => (Raise x, st)
            | None => (Ret tt, st)
            end.

(** [collection.document(id)]: a string names a document, [None] makes a
    reference to a new document that does not exist yet, anything else is
    refused. *)
Definition document (document_id : pyval) : M (option string) :=
  match document_id with
  | PStr s => ret (Some s)
  | PNone => ret None
  | v => raise (type_error ("document id must be a string, not "
                            ++ type_name v))
  end.

Fixpoint lookup (k : string) (docs : list (string * dict)) : option dict :=
  match docs with
  | [] => None
  | (k', d) :: r => if String.eqb k k' then Some d else lookup k r
  end.

Fixpoint replace (k : string) (d : dict) (docs : list (string * dict))
  : list (string * dict) :=
  match docs with
  | [] => []
  | (k', d') :: r =>
      if String.eqb k k' then (k, d) :: r else (k', d') :: replace k d r
  end.

Definition remove (k : string) (docs : list (string * dict))
  : list (string * dict) :=
  filter (fun kd => negb (String.eqb k (fst kd))) docs.

(** [collection.add(data)]: a new document under a store-assigned id. *)
Definition add `{world} (coll : string) (data : dict) : M string :=
  call (EvAdd coll data) ;;;
  fun st =>
    let id := new_id (added st) in
    let st' := set_collection coll (collection coll st ++ [(id, data)]) st in
    (Ret id, mk_state (products st') (orders st') (S (added st)) (ticks st')
                      (fault st') (trace st')).

(** [ref.get()]: the fields, or [None] when the document does not exist. *)
Definition get (coll : string) (ref : option string) : M (option dict) :=
  call (EvGet coll ref) ;;;
  fun st =>
    (Ret (match ref with
          | Some k => lookup k (collection coll st)
          | None => None
          end), st).

(** [ref.update(data)]: overwrites the given fields of an existing document;
    a missing document is an error. *)
Definition update (coll : string) (ref : option string) (data : dict)
  : M unit :=
  call (EvUpdate coll ref data) ;;;
  fun st =>
    match ref with
    | Some k =>
        match lookup k (collection coll st) with
        | Some old =>
            (Ret tt,
             set_collection coll
               (replace k (dict_update old data) (collection coll st)) st)
        | None => (Raise (mk_exn NotFound ("No document to update: " ++ k)), st)
        end
    | None => (Raise (mk_exn NotFound "No document to update"), st)
    end.

(** [ref.delete()]: succeeds whether or not the document exists. *)
Definition delete (coll : string) (ref : option string) : M unit :=
  call (EvDelete coll ref) ;;;
  fun st =>
    match ref with
    | Some k => (Ret tt, set_collection coll (remove k (collection coll st)) st)
    | None => (Ret tt, st)
    end.

(** Equality filter of a query: by value, booleans apart from numbers. *)
Definition field_eq (a b : pyval) : bool :=
  match a, b with
  | PBool _, PBool _ => py_eq a b
  | PBool _, _ | _, PBool _ => false
  | _, _ => py_eq a b
  end.

Definition matches (field : string) (value : pyval) (doc : string * dict)
  : bool :=
  match dict_get field (snd doc) with
  | Some v => field_eq v value
  | None => false
  end.

(** [order_by(field, DESCENDING)] on datetimes: a later reading of the clock
    is a later datetime; documents without the field are left out. *)
Definition tick_of (field : string) (doc : string * dict) : option nat :=
  match dict_get field (snd doc) with
  | Some (PDatetime n) => Some n
  | _ => None
  end.

Fixpoint insert_desc (field : string) (n : nat) (doc : string * dict)
  (sorted : list (string * dict)) : list (string * dict) :=
  match sorted with
  | [] => [doc]
  | d :: r =>
      match tick_of field d with
      | Some m => if (m <? n)%nat then doc :: sorted
                  else d :: insert_desc field n doc r
      | None => d :: insert_desc field n doc r
      end
  end.

Definition order_desc (field : string) (docs : list (string * dict))
  : list (string * dict) :=
  fold_left (fun acc d => match tick_of field d with
                          | Some n => insert_desc field n d acc
                          | None => acc
                          end) docs [].

(** [.limit(l).offset(o)]: skip [o] documents, then keep at most [l]. *)
Definition window (l o : Z) (docs : list (string * dict))
  : list (string * dict) :=
  firstn (Z.to_nat l) (skipn (Z.to_nat o) docs).

(** [collection.where(field, '==', value) ... .stream()], read to its end.
    A negative limit or offset is refused by the store. *)
Definition stream (coll field : string) (value : pyval)
  (win : option (Z * Z)) (descending_by : option string)
  : M (list (string * dict)) :=
  call (EvStream coll field value
          (option_map (fun lo => (PInt (fst lo), PInt (snd lo))) win)
          descending_by) ;;;
  fun st =>
    let found := filter (matches field value) (collection coll st) in
    let ordered := match descending_by with
                   | Some f => order_desc f found
                   | None => found
                   end in
    match win with
    | None => (Ret ordered, st)
    | Some (l, o) =>
        if (l <? 0) || (o <? 0)
        then (Raise (mk_exn ValueError "limit and offset must be non-negative"),
              st)
        else (Ret (window l o ordered), st)
    end.

End Store.

(* ------------------------------------------------------------------ *)
(** ** firebase_client.py *)

Module FirebaseClient.
Section Client.
Context `{W : world}.

(** [d = doc.to_dict(); d['id'] = doc.id] *)
Definition with_id (doc : string * dict) : pyval :=
  PDict (dict_set "id" (PStr (fst doc)) (snd doc)).

(** [a // b] on integers. *)
Definition floordiv (a b : Z) : M Z :=
  if b =? 0
  then raise (mk_exn ZeroDivisionError "integer division or modulo by zero")
  else ret (a / b).

(** Every method is [try: ... except Exception as e: print(...); <raise or
    return a default>]; the prints are not modelled. *)

Definition create_product (product_data : dict) : M string :=
  try_except
    (n <- utcnow ;;
     let current_time := PStr (isoformat n ++ "Z") in
     let product_data := dict_set "createdAt" current_time product_data in
     let product_data := dict_set "updatedAt" current_time product_data in
     product_id <- Store.add "products" product_data ;;
     ret product_id)
    (fun e => raise e).

Definition get_seller_products (user_id : pyval) (page limit : Z) : M pyval :=
  try_except
    (let offset := (page - 1) * limit in
     all <- Store.stream "products" "userId" user_id None None ;;
     let total_products := Z.of_nat (length all) in
     docs <- Store.stream "products" "userId" user_id
               (Some (limit, offset)) None ;;
     let products := map with_id docs in
     total_pages <- floordiv (total_products + limit - 1) limit ;;
     ret (PDict [("products", PList products);
                 ("count", PInt (Z.of_nat (length products)));
                 ("total_count", PInt total_products);
                 ("total_pages", PInt total_pages);
                 ("current_page", PInt page);
                 ("limit", PInt limit)]))
    (fun e => raise e).

Definition get_product_by_id (product_id : pyval) : M pyval :=
  try_except
    (product_ref <- Store.document product_id ;;
     product_doc <- Store.get "products" product_ref ;;
     match product_ref, product_doc with
     | Some k, Some fields => ret (with_id (k, fields))
     | _, _ => ret PNone
     end)
    (fun _ => ret PNone).

Definition update_product (product_id : pyval) (update_data : dict) : M bool :=
  try_except
    (n <- utcnow ;;
     let update_data :=
       dict_set "updatedAt" (PStr (isoformat n ++ "Z")) update_data in
     product_ref <- Store.document product_id ;;
     Store.update "products" product_ref update_data ;;;
     ret true)
    (fun _ => ret false).

Definition delete_product (product_id : pyval) : M bool :=
  try_except
    (product_ref <- Store.document product_id ;;
     Store.delete "products" product_ref ;;;
     ret true)
    (fun _ => ret false).

(** [v.lower()]: only a string has [lower]. *)
Definition py_lower (v : pyval) : M string :=
  match v with
  | PStr s => ret (Str.lower s)
  | _ => raise (mk_exn AttributeError
                  ("'" ++ type_name v ++ "' object has no attribute 'lower'"))
  end.

(** [search_term.lower() in product_data.get(field, '').lower()] *)
Definition term_in_field (search_term : pyval) (field : string) (d : dict)
  : M bool :=
  needle <- py_lower search_term ;;
  hay <- py_lower (dict_get_default field (PStr EmptyString) d) ;;
  ret (Str.contains needle hay).

Definition matches_search (search_term : pyval) (d : dict) : M bool :=
  a <- term_in_field search_term "name" d ;;
  if a then ret true else
  b <- term_in_field search_term "description" d ;;
  if b then ret true else
  term_in_field search_term "sku" d.

Definition matches_category (category : pyval) (d : dict) : bool :=
  negb (truthy category)
  || py_eq (dict_get_default "category" (PStr EmptyString) d) category.

Fixpoint search_loop (search_term category : pyval)
  (docs : list (string * dict)) (products : list pyval) : M (list pyval) :=
  match docs with
  | [] => ret products
  | doc :: rest =>
      let product_data := dict_set "id" (PStr (fst doc)) (snd doc) in
      ms <- matches_search search_term product_data ;;
      let mc := matches_category category product_data in
      search_loop search_term category rest
        (if ms && mc then products ++ [PDict product_data] else products)
  end.

Definition search_products (user_id search_term category : pyval)
  : M (list pyval) :=
  try_except
    (docs <- Store.stream "products" "userId" user_id None None ;;
     search_loop search_term category docs [])
    (fun e => raise e).

Definition update_product_quantity (product_id new_quantity : pyval)
  : M bool :=
  try_except
    (product_ref <- Store.document product_id ;;
     n <- utcnow ;;
     Store.update "products" product_ref
       [("quantity", new_quantity);
        ("updatedAt", PStr (isoformat n ++ "Z"))] ;;;
     ret true)
    (fun _ => ret false).

Definition create_order (user_id : pyval) (order_data : dict) : M string :=
  try_except
    (created <- utcnow ;;
     updated <- utcnow ;;
     let order_doc :=
       [("user_id", user_id);
        ("chat_message",
         dict_get_default "chat_message" (PStr EmptyString) order_data);
        ("order_details",
         dict_get_default "order_details" (PDict []) order_data);
        ("status", PStr "pending");
        ("created_at", PDatetime created);
        ("updated_at", PDatetime updated)] in
     order_id <- Store.add "orders" order_doc ;;
     ret order_id)
    (fun e => raise e).

Definition get_user_orders (user_id : pyval) : M (list pyval) :=
  try_except
    (docs <- Store.stream "orders" "user_id" user_id None
               (Some "created_at") ;;
     ret (map with_id docs))
    (fun e => raise e).

Definition update_order_status (order_id status : pyval) : M bool :=
  try_except
    (order_ref <- Store.document order_id ;;
     n <- utcnow ;;
     Store.update "orders" order_ref
       [("status", status); ("updated_at", PDatetime n)] ;;;
     ret true)
    (fun _ => ret false).

Definition get_order_by_id (order_id : pyval) : M pyval :=
  try_except
    (order_ref <- Store.document order_id ;;
     order_doc <- Store.get "orders" order_ref ;;
     match order_ref, order_doc with
     | Some k, Some fields => ret (with_id (k, fields))
     | _, _ => ret PNone
     end)
    (fun _ => ret PNone).

End Client.
End FirebaseClient.

(* ------------------------------------------------------------------ *)
(** ** Calling a method with keyword arguments only: [f( **parameters)] *)

(** The parameters of a method after [self], each with its default if it has
    one, and whether the method ends in [**kwargs]. *)
Record signature : Type := mk_signature {
  sig_qualname : string;
  sig_params : list (string * option pyval);
  sig_var_keyword : bool
}.

Definition required_params (sg : signature) : list string :=
  map fst (filter (fun p => match snd p with None => true | Some _ => false end)
                  (sig_params sg)).

Definition is_param (sg : signature) (k : string) : bool :=
  existsb (fun p => String.eqb k (fst p)) (sig_params sg).

Definition quoted (k : string) : string := "'" ++ k ++ "'".

(** The names of the missing arguments, as the interpreter lists them. *)
Fixpoint name_list_tail (ks : list string) : string :=
  match ks with
  | [] => EmptyString
  | [a] => "and " ++ quoted a
  | a :: r => quoted a ++ ", " ++ name_list_tail r
  end.

Definition name_list (ks : list string) : string :=
  match ks with
  | [] => EmptyString
  | [a] => quoted a
  | [a; b] => quoted a ++ " and " ++ quoted b
  | a :: r => quoted a ++ ", " ++ name_list_tail r
  end.

(** The keywords are taken one by one: a keyword that names a parameter
    binds it, [self] is taken already, any other keyword goes to [**kwargs]
    when the method has it and is an error otherwise. *)
Fixpoint bind_keywords (sg : signature) (kw : dict) (bound extra : dict)
  : exn + (dict * dict) :=
  match kw with
  | [] => inr (bound, extra)
  | (k, v) :: r =>
      if String.eqb k "self" then
        inl (type_error (sig_qualname sg
                         ++ "() got multiple values for argument 'self'"))
      else if is_param sg k then
        bind_keywords sg r (dict_set k v bound) extra
      else if sig_var_keyword sg then
        bind_keywords sg r bound (dict_set k v extra)
      else
        inl (type_error (sig_qualname sg
                         ++ "() got an unexpected keyword argument "
                         ++ quoted k))
  end.

(** Parameters left unbound take their default; one without default is
    missing. *)
Fixpoint fill_defaults (ps : list (string * option pyval)) (bound : dict)
  : dict * list string :=
  match ps with
  | [] => ([], [])
  | (k, dflt) :: r =>
      let (args, missing) := fill_defaults r bound in
      match dict_get k bound, dflt with
      | Some v, _ => ((k, v) :: args, missing)
      | None, Some v => ((k, v) :: args, missing)
      | None, None => (args, k :: missing)
      end
  end.

Definition bind_arguments (sg : signature) (kw : dict) : exn + (dict * dict) :=
  match bind_keywords sg kw [] [] with
  | inl e => inl e
  | inr (bound, extra) =>
      match fill_defaults (sig_params sg) bound with
      | (args, []) => inr (args, extra)
      | (_, missing) =>
          inl (type_error
                 (sig_qualname sg ++ "() missing "
                  ++ Str.of_Z (Z.of_nat (length missing))
                  ++ " required positional argument"
                  ++ (match missing with [_] => ": " | _ => "s: " end)
                  ++ name_list missing))
      end
  end.

(** A registered callable: its signature, and its body reading the bound
    arguments and the extra keywords. *)
Record callable : Type := mk_callable {
  sig : signature;
  body : dict -> dict -> M pyval
}.

Definition arg (args : dict) (k : string) : pyval :=
  dict_get_default k PNone args.

(** [f( **kw)] *)
Definition invoke (f : callable) (kw : dict) : M pyval :=
  match bind_arguments (sig f) kw with
  | inl e => raise e
  | inr (args, extra) => body f args extra
  end.

(** [f( **parameters)]: the object after [**] must be a mapping. *)
Definition invoke_star (f : callable) (parameters : pyval) : M pyval :=
  match parameters with
  | PDict kw => invoke f kw
  | v => raise (type_error (sig_qualname (sig f)
                            ++ "() argument after ** must be a mapping, not "
                            ++ type_name v))
  end.

(* ------------------------------------------------------------------ *)
(** ** gemini_agent.py *)

Module GeminiAgent.

(** An entry of [self.function_descriptions]. *)
Record descriptor : Type := mk_descriptor {
  name : string;
  description : string;
  parameters : list (string * string)
}.

Definition descriptor_to_py (d : descriptor) : pyval :=
  PDict [("name", PStr (name d));
         ("description", PStr (description d));
         ("parameters",
          PDict (map (fun p => (fst p, PStr (snd p))) (parameters d)))].

Definition descriptions_to_py (ds : list descriptor) : pyval :=
  PList (map descriptor_to_py ds).

(** The descriptor text of a parameter marks it as not required by
    "(optional)" or by "(default: ...)". *)
Definition declared_optional (text : string) : bool :=
  Str.contains "(optional)" text || Str.contains "(default:" text.

Definition declared_required (d : descriptor) : list string :=
  map fst (filter (fun p => negb (declared_optional (snd p))) (parameters d)).

(** The two attributes of [self] the dispatcher reads. *)
Record agent : Type := mk_agent {
  available_functions : list (string * callable);
  function_descriptions : list descriptor
}.

Fixpoint lookup (k : string) (fs : list (string * callable))
  : option callable :=
  match fs with
  | [] => None
  | (k', f) :: r => if String.eqb k k' then Some f else lookup k r
  end.

Definition success_result (data : pyval) (message : string) : pyval :=
  PDict [("success", PBool true); ("data", data); ("message", PStr message)].

Definition error_result (error : string) : pyval :=
  PDict [("success", PBool false); ("error", PStr error)].

(** [except Exception as e: return {"success": False, "error": str(e)}] *)
Definition str_e (e : exn) : M pyval := ret (error_result (exn_msg e)).

(** [v[k]] *)
Definition py_index (v : pyval) (k : string) : M pyval :=
  match v with
  | PDict d =>
      match dict_get k d with
      | Some x => ret x
      | None => raise (mk_exn KeyError (quoted k))
      end
  | _ => raise (type_error ("'" ++ type_name v
                            ++ "' object is not subscriptable"))
  end.

Section Agent.
Context `{W : world}.

(** *** The eleven operations

    [page] and [limit] are handed to the client as they come; the client
    uses them as integers.  An argument of another type makes the call
    raise, here at its first use as an integer, and the handler of the
    method turns that into a failed result as it does any other exception. *)
Definition _get_seller_products (user_id page limit : pyval) : M pyval :=
  try_except
    (p <- as_int page ;;
     l <- as_int limit ;;
     result <- FirebaseClient.get_seller_products user_id p l ;;
     count <- py_index result "count" ;;
     ret (success_result result
            ("Retrieved " ++ py_str count ++ " products for seller")))
    str_e.

Definition _get_product_details (product_id : pyval) : M pyval :=
  try_except
    (product <- FirebaseClient.get_product_by_id product_id ;;
     if truthy product then
       ret (success_result product
              ("Retrieved details for product " ++ py_str product_id))
     else ret (error_result "Product not found"))
    str_e.

Definition required_fields : list string :=
  ["category"; "companyName"; "description"; "imageUrl"; "name"; "price";
   "quantity"; "sku"; "userId"].

(** [for field in required_fields: if field not in kwargs: return ...] *)
Fixpoint first_missing (fields : list string) (kwargs : dict) : option string :=
  match fields with
  | [] => None
  | f :: r => if dict_has f kwargs then first_missing r kwargs else Some f
  end.

Definition _create_product (kwargs : dict) : M pyval :=
  try_except
    (match first_missing required_fields kwargs with
     | Some field => ret (error_result ("Missing required field: " ++ field))
     | None =>
         let kwargs :=
           if dict_has "userType" kwargs then kwargs
           else dict_set "userType" (PStr "seller") kwargs in
         product_id <- FirebaseClient.create_product kwargs ;;
         ret (success_result (PDict [("product_id", PStr product_id)])
                ("Product '" ++ py_str (arg kwargs "name")
                 ++ "' created successfully"))
     end)
    str_e.

(** [{k: v for k, v in kwargs.items() if v is not None}] *)
Definition drop_none (kwargs : dict) : dict :=
  filter (fun kv => match snd kv with PNone => false | _ => true end) kwargs.

Definition _update_product (product_id : pyval) (kwargs : dict) : M pyval :=
  try_except
    (let update_data := drop_none kwargs in
     match update_data with
     | [] => ret (error_result "No valid update data provided")
     | _ =>
         success <- FirebaseClient.update_product product_id update_data ;;
         if success : bool then
           ret (success_result (PDict [("product_id", product_id)])
                  ("Product " ++ py_str product_id ++ " updated successfully"))
         else ret (error_result "Failed to update product")
     end)
    str_e.

Definition _delete_product (product_id : pyval) : M pyval :=
  try_except
    (success <- FirebaseClient.delete_product product_id ;;
     if success : bool then
       ret (success_result (PDict [("product_id", product_id)])
              ("Product " ++ py_str product_id ++ " deleted successfully"))
     else ret (error_result "Failed to delete product"))
    str_e.

Definition _search_products (user_id search_term category : pyval) : M pyval :=
  try_except
    (products <- FirebaseClient.search_products user_id search_term category ;;
     let count := Z.of_nat (length products) in
     ret (success_result
            (PDict [("products", PList products); ("count", PInt count)])
            ("Found " ++ Str.of_Z count ++ " products matching '"
             ++ py_str search_term ++ "'")))
    str_e.

Definition _update_product_quantity (product_id quantity : pyval) : M pyval :=
  try_except
    (success <- FirebaseClient.update_product_quantity product_id quantity ;;
     if success : bool then
       ret (success_result
              (PDict [("product_id", product_id); ("quantity", quantity)])
              ("Product quantity updated to " ++ py_str quantity))
     else ret (error_result "Failed to update quantity"))
    str_e.

Definition _get_user_orders (user_id : pyval) : M pyval :=
  try_except
    (orders <- FirebaseClient.get_user_orders user_id ;;
     let count := Z.of_nat (length orders) in
     ret (success_result
            (PDict [("orders", PList orders); ("count", PInt count)])
            ("Retrieved " ++ Str.of_Z count ++ " orders for user")))
    str_e.

Definition _get_order_details (order_id : pyval) : M pyval :=
  try_except
    (order <- FirebaseClient.get_order_by_id order_id ;;
     if truthy order then
       ret (success_result order
              ("Retrieved details for order " ++ py_str order_id))
     else ret (error_result "Order not found"))
    str_e.

Definition _place_order
  (user_id chat_message order_details use_ai_processing : pyval) : M pyval :=
  try_except
    (order_id <- FirebaseClient.create_order user_id
                   [("chat_message", chat_message);
                    ("order_details",
                     if truthy order_details then order_details
                     else PDict [])] ;;
     ret (success_result (PDict [("order_id", PStr order_id)])
            ("Order placed successfully with ID: " ++ order_id)))
    str_e.

Definition _update_order_status (order_id status : pyval) : M pyval :=
  try_except
    (success <- FirebaseClient.update_order_status order_id status ;;
     if success : bool then
       ret (success_result
              (PDict [("order_id", order_id); ("status", status)])
              ("Order status updated to " ++ py_str status))
     else ret (error_result "Failed to update order status"))
    str_e.

(** *** [self.available_functions]: each name with its method, the
    signature being that of the [def]. *)
Definition method (qualname : string) (params : list (string * option pyval))
  (var_keyword : bool) (body : dict -> dict -> M pyval) : callable :=
  mk_callable (mk_signature ("GeminiAgent." ++ qualname) params var_keyword)
              body.

Definition the_available_functions : list (string * callable) :=
  [("get_seller_products",
    method "_get_seller_products"
      [("user_id", None); ("page", Some (PInt 1)); ("limit", Some (PInt 10))]
      false
      (fun a _ => _get_seller_products (arg a "user_id") (arg a "page")
                    (arg a "limit")));
   ("get_product_details",
    method "_get_product_details" [("product_id", None)] false
      (fun a _ => _get_product_details (arg a "product_id")));
   ("create_product",
    method "_create_product" [] true (fun _ kwargs => _create_product kwargs));
   ("update_product",
    method "_update_product" [("product_id", None)] true
      (fun a kwargs => _update_product (arg a "product_id") kwargs));
   ("delete_product",
    method "_delete_product" [("product_id", None)] false
      (fun a _ => _delete_product (arg a "product_id")));
   ("search_products",
    method "_search_products"
      [("user_id", None); ("search_term", None); ("category", Some PNone)]
      false
      (fun a _ => _search_products (arg a "user_id") (arg a "search_term")
                    (arg a "category")));
   ("update_product_quantity",
    method "_update_product_quantity"
      [("product_id", None); ("quantity", None)] false
      (fun a _ => _update_product_quantity (arg a "product_id")
                    (arg a "quantity")));
   ("get_user_orders",
    method "_get_user_orders" [("user_id", None)] false
      (fun a _ => _get_user_orders (arg a "user_id")));
   ("get_order_details",
    method "_get_order_details" [("order_id", None)] false
      (fun a _ => _get_order_details (arg a "order_id")));
   ("place_order",
    method "_place_order"
      [("user_id", None); ("chat_message", None);
       ("order_details", Some PNone);
       ("use_ai_processing", Some (PBool true))] false
      (fun a _ => _place_order (arg a "user_id") (arg a "chat_message")
                    (arg a "order_details") (arg a "use_ai_processing")));
   ("update_order_status",
    method "_update_order_status" [("order_id", None); ("status", None)] false
      (fun a _ => _update_order_status (arg a "order_id") (arg a "status")))].

(** *** [self.function_descriptions] *)
Definition the_function_descriptions : list descriptor :=
 [{| name := "get_seller_products";
      description := "Get all products for a specific seller with pagination";
      parameters :=
        [("user_id", "string - Seller's Firebase user ID");
         ("page", "integer - Page number (default: 1)");
         ("limit", "integer - Number of products per page (default: 10)")] |};
   {| name := "get_product_details";
      description := "Get detailed information about a specific product";
      parameters :=
        [("product_id", "string - Product ID to retrieve")] |};
   {| name := "create_product";
      description := "Create a new product for a seller";
      parameters :=
        [("category", "string - Product category (e.g., Electronics, Clothing)");
         ("companyName", "string - Company name");
         ("description", "string - Product description");
         ("imageUrl", "string - Product image URL");
         ("name", "string - Product name");
         ("price", "number - Product price");
         ("quantity", "integer - Available quantity");
         ("sku", "string - Product SKU");
         ("userId", "string - Seller's Firebase user ID");
         ("userType", "string - User type (default: seller)")] |};
   {| name := "update_product";
      description := "Update an existing product's information";
      parameters :=
        [("product_id", "string - Product ID to update");
         ("name", "string - New product name (optional)");
         ("price", "number - New price (optional)");
         ("quantity", "integer - New quantity (optional)");
         ("description", "string - New description (optional)");
         ("category", "string - New category (optional)");
         ("imageUrl", "string - New image URL (optional)")] |};
   {| name := "delete_product";
      description := "Delete a product from inventory";
      parameters :=
        [("product_id", "string - Product ID to delete")] |};
   {| name := "search_products";
      description := "Search products for a seller by name, description, or SKU";
      parameters :=
        [("user_id", "string - Seller's Firebase user ID");
         ("search_term", "string - Search term");
         ("category", "string - Category filter (optional)")] |};
   {| name := "update_product_quantity";
      description := "Update the quantity of a specific product";
      parameters :=
        [("product_id", "string - Product ID");
         ("quantity", "integer - New quantity")] |};
   {| name := "get_user_orders";
      description := "Get all orders for a specific user";
      parameters :=
        [("user_id", "string - User's Firebase user ID")] |};
   {| name := "get_order_details";
      description := "Get detailed information about a specific order";
      parameters :=
        [("order_id", "string - Order ID to retrieve")] |};
   {| name := "place_order";
      description := "Place a new order via chat message";
      parameters :=
        [("user_id", "string - Buyer's Firebase user ID");
         ("chat_message", "string - Order message");
         ("order_details", "object - Additional order details (optional)");
         ("use_ai_processing", "boolean - Whether to use AI processing (default: true)")] |};
   {| name := "update_order_status";
      description := "Update the status of an order";
      parameters :=
        [("order_id", "string - Order ID");
         ("status", "string - New status (pending, processing, completed, cancelled)")] |}].

(** The global instance [gemini_agent = GeminiAgent()]. *)
Definition gemini_agent : agent :=
  mk_agent the_available_functions the_function_descriptions.

(** *** The dispatcher *)

(** [context] is [Optional[Dict[str, Any]]]. *)
Definition _create_system_prompt (context : option dict) : string :=
  let prompt :=
  Str.unlines
    [EmptyString;
     "        You are an AI assistant for WKC (wkc.vercel.app) that helps users interact with their product inventory and orders through natural language.";
     "        ";
     "        Your role is to:";
     "        1. Understand user queries in natural language";
     "        2. Identify the appropriate function to call";
     "        3. Extract relevant parameters from the query";
     "        4. Provide clear explanations of what will be done";
     "        ";
     "        Context Information:";
     "        "] in
  match context with
  | Some ((_ :: _) as items) =>
      fold_left (fun prompt kv =>
                   prompt ++ "- " ++ fst kv ++ ": " ++ py_str (snd kv)
                   ++ Str.nl)
                items prompt
  | _ => prompt
  end.

Definition user_prompt (self : agent) (query : string) : string :=
  Str.unlines
    [EmptyString;
     (Str.dq "            User Query: `" ++ query ++ Str.dq "`");
     "            ";
     "            Based on the available functions and the user's query, determine which function to call and with what parameters.";
     "            ";
     "            Available Functions:";
     ("            " ++ json_dumps_indent2 (descriptions_to_py (function_descriptions self)));
     "            ";
     "            Please respond with a JSON object containing:";
     "            {";
     Str.dq "                `function_name`: `name of the function to call`,";
     Str.dq "                `parameters`: {";
     Str.dq "                    `param1`: `value1`,";
     Str.dq "                    `param2`: `value2`";
     "                },";
     Str.dq "                `explanation`: `Brief explanation of what this function will do`";
     "            }";
     "            ";
     "            If the query doesn't match any function, respond with:";
     "            {";
     Str.dq "                `function_name`: null,";
     Str.dq "                `parameters`: {},";
     Str.dq "                `explanation`: `No matching function found for this query`";
     "            }";
     "            "].

(** [self.model.generate_content(prompt)] and the [.text] of its response:
    the call is recorded, then answers or raises. *)
Definition generate (prompt : string) : M string :=
  fun st =>
    let (_, st') := emit (EvGenerate prompt) st in
    match generate_content (trace st) prompt with
    | inl e => (Raise e, st')
    | inr text => (Ret text, st')
    end.

Definition loads (text : string) : M pyval :=
  match json_loads text with
  | inl msg => raise (mk_exn JSONDecodeError msg)
  | inr v => ret v
  end.

Definition parse_failure (text : string) : pyval :=
  PDict [("success", PBool false);
         ("error", PStr "Failed to parse AI response");
         ("raw_response", PStr text)].

(** "Parse the response" (lines 191-205): [inr result] goes on to the
    execution, [inl r] is the [return r] of the innermost branch.  The second
    [json.loads] stands inside the handler, so what it raises is not caught
    here. *)
Definition parse_response (text : string) : M (pyval + pyval) :=
  try_except_if is_JSONDecodeError
    (result <- loads text ;; ret (inr result))
    (fun _ =>
       match Str.re_search_braces text with
       | Some json_match => result <- loads json_match ;; ret (inr result)
       | None => ret (inl (parse_failure text))
       end).

(** [v in self.available_functions], and [self.available_functions[v]] when
    it is: only a string can be one of the keys, and an unhashable object
    cannot even be looked up. *)
Definition registered (self : agent) (v : pyval) : M (option callable) :=
  match v with
  | PStr s => ret (lookup s (available_functions self))
  | PList _ | PDict _ =>
      raise (type_error ("unhashable type: " ++ quoted (type_name v)))
  | _ => ret None
  end.

Definition no_match (self : agent) (explanation : pyval) : pyval :=
  PDict [("success", PBool false);
         ("function_called", PNone);
         ("explanation", explanation);
         ("available_functions",
          PList (map (fun f => PStr (name f)) (function_descriptions self)))].

(** "Execute function if one was identified" (lines 207-228). *)
Definition execute (self : agent) (result : pyval) : M pyval :=
  function_name <- py_get result "function_name" PNone ;;
  found <- (if truthy function_name then registered self function_name
            else ret None) ;;
  match found with
  | Some f =>
      parameters <- py_get result "parameters" (PDict []) ;;
      function_result <- invoke_star f parameters ;;
      explanation <- py_get result "explanation" (PStr EmptyString) ;;
      ret (PDict [("success", PBool true);
                  ("function_called", function_name);
                  ("parameters", parameters);
                  ("explanation", explanation);
                  ("result", function_result)])
  | None =>
      explanation <- py_get result "explanation"
                       (PStr "No matching function found") ;;
      ret (no_match self explanation)
  end.

Definition process_natural_language_query (self : agent) (query : string)
  (context : option dict) : M pyval :=
  try_except
    (let system_prompt := _create_system_prompt context in
     let user_prompt := user_prompt self query in
     text <- generate user_prompt ;;
     parsed <- parse_response text ;;
     match parsed with
     | inl early => ret early
     | inr result => execute self result
     end)
    (fun e => ret (error_result ("Failed to process query: " ++ exn_msg e))).

End Agent.
End GeminiAgent.

(* ------------------------------------------------------------------ *)
(** ** gemini_service.py *)

Module GeminiService.
Section Service.
Context `{W : world}.

Definition system_prompt : string :=
  Str.unlines
    [EmptyString;
     "        You are an AI assistant for WKC (wkc.vercel.app) that helps process orders from chat messages.";
     "        ";
     "        Your role is to:";
     "        1. Extract order details from user chat messages";
     "        2. Structure the order information clearly";
     "        3. Provide helpful responses to users";
     "        4. Handle order modifications and clarifications";
     "        ";
     "        When processing orders, extract:";
     "        - Items ordered (with quantities if specified)";
     "        - Special instructions or preferences";
     "        - Delivery/pickup preferences";
     "        - Any additional requirements";
     "        ";
     "        Be friendly, helpful, and accurate in your responses.";
     "        "].

Definition order_prompt (chat_message user_id : string) : string :=
  Str.unlines
    [EmptyString;
     ("            " ++ system_prompt);
     "            ";
     ("            User ID: " ++ user_id);
     (Str.dq "            Chat Message: `" ++ chat_message ++ Str.dq "`");
     "            ";
     "            Please analyze this order message and extract the following information:";
     "            1. Items ordered (list each item with quantity)";
     "            2. Special instructions or preferences";
     "            3. Delivery/pickup preference";
     "            4. Any additional requirements";
     "            ";
     "            Format your response as a JSON object with these fields:";
     "            - items: list of items with quantities";
     "            - special_instructions: string";
     "            - delivery_preference: string";
     "            - additional_requirements: string";
     "            - ai_analysis: brief summary of the order";
     "            "].

Definition placeholder_items : pyval :=
  PList [PDict [("name", PStr "order from chat"); ("quantity", PInt 1)]].

Definition order_details_of (items special_instructions delivery_preference
                              additional_requirements ai_analysis : pyval)
  : pyval :=
  PDict [("items", items);
         ("special_instructions", special_instructions);
         ("delivery_preference", delivery_preference);
         ("additional_requirements", additional_requirements);
         ("ai_analysis", ai_analysis)].

Definition _parse_ai_response (ai_response original_message : string)
  : M pyval :=
  try_except
    (match Str.re_search_braces ai_response with
     | Some json_match =>
         parsed_data <- GeminiAgent.loads json_match ;;
         items <- py_get parsed_data "items" (PList []) ;;
         special_instructions <-
           py_get parsed_data "special_instructions" (PStr EmptyString) ;;
         delivery_preference <-
           py_get parsed_data "delivery_preference" (PStr "not specified") ;;
         additional_requirements <-
           py_get parsed_data "additional_requirements" (PStr EmptyString) ;;
         ai_analysis <-
           py_get parsed_data "ai_analysis" (PStr (Str.take 200 ai_response)) ;;
         ret (order_details_of items special_instructions delivery_preference
                additional_requirements ai_analysis)
     | None =>
         ret (order_details_of placeholder_items (PStr EmptyString)
                (PStr "not specified") (PStr EmptyString)
                (PStr (Str.take 200 ai_response)))
     end)
    (fun _ =>
       ret (order_details_of placeholder_items (PStr EmptyString)
              (PStr "not specified") (PStr EmptyString)
              (PStr ("Original message: " ++ original_message)))).

Definition process_order_message (chat_message user_id : string) : M pyval :=
  try_except
    (let prompt := order_prompt chat_message user_id in
     text <- GeminiAgent.generate prompt ;;
     order_details <- _parse_ai_response text chat_message ;;
     ai_analysis <- py_get order_details "ai_analysis" (PStr EmptyString) ;;
     ret (PDict [("success", PBool true);
                 ("order_details", order_details);
                 ("ai_analysis", ai_analysis);
                 ("processed_message", PStr chat_message)]))
    (fun e =>
       ret (PDict [("success", PBool false);
                   ("error", PStr ("Failed to process order: " ++ exn_msg e));
                   ("order_details",
                    order_details_of (PList []) (PStr EmptyString)
                      (PStr "not specified") (PStr EmptyString)
                      (PStr "Failed to process with AI"))])).




Definition modification_prompt (original_order : pyval)
  (modification_request : string) : string :=
  Str.unlines
    [EmptyString;
     ("            " ++ system_prompt);
     "            ";
     ("            Original Order: " ++ py_str original_order);
     (Str.dq "            Modification Request: `" ++ modification_request ++ Str.dq "`");
     "            ";
     "            Please analyze the modification request and provide updated order details.";
     "            Return the complete updated order as a JSON object.";
     "            "].

Definition handle_order_modification (original_order : pyval)
  (modification_request : string) : M pyval :=
  try_except
    (let prompt := modification_prompt original_order modification_request in
     text <- GeminiAgent.generate prompt ;;
     updated_details <- _parse_ai_response text modification_request ;;
     ret (PDict [("success", PBool true);
                 ("updated_order", updated_details);
                 ("modification_summary",
                  PStr ("Order modified based on: "
                        ++ modification_request))]))
    (fun e =>
       ret (PDict [("success", PBool false);
                   ("error",
                    PStr ("Failed to process modification: "
                          ++ exn_msg e))])).

End Service.
End GeminiService.

(* ------------------------------------------------------------------ *)
(** ** main.py: the [/query] and [POST /products] endpoints

    An endpoint returns its response body or raises an [HTTPException], which
    the framework turns into an error response with that status code. *)

Module Main.

(** [NaturalLanguageQueryRequest] *)
Record NaturalLanguageQueryRequest : Type := mk_query_request {
  query : string;
  user_id : option string;
  context : option dict
}.

(** [ProductCreate], after the framework validated the request body. *)
Record ProductCreate : Type := mk_product_create {
  category : string;
  companyName : string;
  description : string;
  imageUrl : string;
  name : string;
  price : float;
  quantity : Z;
  sku : string;
  userType : string
}.

(** [product_data.dict()] *)
Definition product_dict (p : ProductCreate) : dict :=
  [("category", PStr (category p));
   ("companyName", PStr (companyName p));
   ("description", PStr (description p));
   ("imageUrl", PStr (imageUrl p));
   ("name", PStr (name p));
   ("price", PFloat (price p));
   ("quantity", PInt (quantity p));
   ("sku", PStr (sku p));
   ("userType", PStr (userType p))].

Definition http_error (status_code : Z) (detail : string) : exn :=
  mk_exn (HTTPException status_code) detail.

(** [except HTTPException: raise / except Exception as e: raise
    HTTPException(500, prefix + str(e))] *)
Definition endpoint_handler {A} (prefix : string) (e : exn) : M A :=
  if is_HTTPException e then raise e
  else raise (http_error 500 (prefix ++ exn_msg e)).

Section Endpoints.
Context `{W : world}.

Definition process_natural_language_query
  (request : NaturalLanguageQueryRequest) : M pyval :=
  try_except
    (if String.eqb (Str.strip (query request)) EmptyString
     then raise (http_error 400 "Query is required")
     else
       let context := match context request with
                      | Some ((_ :: _) as c) => c
                      | _ => []
                      end in
       let context := match user_id request with
                      | Some u => if String.eqb u EmptyString then context
                                  else dict_set "user_id" (PStr u) context
                      | None => context
                      end in
       result <- GeminiAgent.process_natural_language_query
                   GeminiAgent.gemini_agent (query request) (Some context) ;;
       success <- GeminiAgent.py_index result "success" ;;
       if truthy success then
         function_called <- py_get result "function_called" PNone ;;
         explanation <- py_get result "explanation" PNone ;;
         res <- py_get result "result" PNone ;;
         parameters <- py_get result "parameters" (PDict []) ;;
         ret (PDict [("success", PBool true);
                     ("query", PStr (query request));
                     ("function_called", function_called);
                     ("explanation", explanation);
                     ("result", res);
                     ("parameters_used", parameters)])
       else
         error <- py_get result "error" PNone ;;
         explanation <- py_get result "explanation" PNone ;;
         available <- py_get result "available_functions" (PList []) ;;
         ret (PDict [("success", PBool false);
                     ("query", PStr (query request));
                     ("error", error);
                     ("explanation", explanation);
                     ("available_functions", available)]))
    (endpoint_handler "Failed to process query: ").

Definition create_product (product_data : ProductCreate) : M pyval :=
  try_except
    (if String.eqb (Str.strip (name product_data)) EmptyString
     then raise (http_error 400 "Product name is required")
     else if PrimFloat.leb (price product_data) 0%float
     then raise (http_error 400 "Price must be greater than 0")
     else if quantity product_data <? 0
     then raise (http_error 400 "Quantity cannot be negative")
     else
       let product_data_dict := product_dict product_data in
       product_id <- FirebaseClient.create_product product_data_dict ;;
       ret (PDict [("success", PBool true);
                   ("product_id", PStr product_id);
                   ("message", PStr "Product created successfully");
                   ("data", PDict (product_dict product_data))]))
    (endpoint_handler "Failed to create product: ").

End Endpoints.
(** *** The other endpoints

    Path and query parameters arrive as the framework validated them: strings
    for identifiers, integers within the declared bounds ([page >= 1],
    [1 <= limit <= 100], [quantity >= 0]). *)

(** [ProductUpdate]: every field is optional. *)
Record ProductUpdate : Type := mk_product_update {
  u_category : option string;
  u_companyName : option string;
  u_description : option string;
  u_imageUrl : option string;
  u_name : option string;
  u_price : option float;
  u_quantity : option Z;
  u_sku : option string
}.

Definition opt_entry {A} (k : string) (inj : A -> pyval) (o : option A)
  : dict :=
  match o with Some a => [(k, inj a)] | None => [] end.

(** [{k: v for k, v in update_data.dict().items() if v is not None}] *)
Definition update_dict_of (u : ProductUpdate) : dict :=
  (opt_entry "category" PStr (u_category u)
   ++ opt_entry "companyName" PStr (u_companyName u)
   ++ opt_entry "description" PStr (u_description u)
   ++ opt_entry "imageUrl" PStr (u_imageUrl u)
   ++ opt_entry "name" PStr (u_name u)
   ++ opt_entry "price" PFloat (u_price u)
   ++ opt_entry "quantity" PInt (u_quantity u)
   ++ opt_entry "sku" PStr (u_sku u))%list.


Definition blank (s : string) : bool :=
  String.eqb (Str.strip s) EmptyString.

(** [v.isoformat()]: only a datetime has it. *)
Definition py_isoformat `{world} (v : pyval) : M pyval :=
  match v with
  | PDatetime n => ret (PStr (isoformat n))
  | _ => raise (mk_exn AttributeError
                  ("'" ++ type_name v
                   ++ "' object has no attribute 'isoformat'"))
  end.

(** [if k in order: order[k] = order[k].isoformat()] *)
Definition isoformat_field `{world} (k : string) (order : dict) : M dict :=
  match dict_get k order with
  | Some v => s <- py_isoformat v ;; ret (dict_set k s order)
  | None => ret order
  end.

Definition isoformat_order `{world} (order : pyval) : M pyval :=
  match order with
  | PDict d =>
      d1 <- isoformat_field "created_at" d ;;
      d2 <- isoformat_field "updated_at" d1 ;;
      ret (PDict d2)
  | v => raise (type_error ("argument of type '" ++ type_name v
                            ++ "' is not iterable"))
  end.

Fixpoint isoformat_orders `{world} (orders : list pyval) : M (list pyval) :=
  match orders with
  | [] => ret []
  | o :: r =>
      o' <- isoformat_order o ;;
      r' <- isoformat_orders r ;;
      ret (o' :: r')
  end.

Section Routes.
Context `{W : world}.

Definition get_seller_products (user_id : string) (page limit : Z) : M pyval :=
  try_except
    (if blank user_id then raise (http_error 400 "User ID is required")
     else
       result <- FirebaseClient.get_seller_products (PStr user_id) page limit ;;
       products <- GeminiAgent.py_index result "products" ;;
       count <- GeminiAgent.py_index result "count" ;;
       total_pages <- GeminiAgent.py_index result "total_pages" ;;
       current_page <- GeminiAgent.py_index result "current_page" ;;
       ret (PDict [("success", PBool true);
                   ("products", products);
                   ("count", count);
                   ("total_pages", total_pages);
                   ("current_page", current_page)]))
    (endpoint_handler "Failed to fetch seller products: ").


Definition update_product (product_id : string) (update_data : ProductUpdate)
  : M pyval :=
  try_except
    (if blank product_id then raise (http_error 400 "Product ID is required")
     else
       let update_dict := update_dict_of update_data in
       match update_dict with
       | [] => raise (http_error 400 "No valid update data provided")
       | _ =>
           if match u_price update_data with
              | Some price => PrimFloat.leb price 0%float
              | None => false
              end
           then raise (http_error 400 "Price must be greater than 0")
           else if match u_quantity update_data with
                   | Some quantity => quantity <? 0
                   | None => false
                   end
           then raise (http_error 400 "Quantity cannot be negative")
           else
             success <- FirebaseClient.update_product (PStr product_id)
                          update_dict ;;
             if negb success
             then raise (http_error 500 "Failed to update product")
             else
               updated_product <-
                 FirebaseClient.get_product_by_id (PStr product_id) ;;
               ret (PDict [("success", PBool true);
                           ("product_id", PStr product_id);
                           ("message", PStr "Product updated successfully");
                           ("data", updated_product)])
       end)
    (endpoint_handler "Failed to update product: ").

Definition delete_product (product_id : string) : M pyval :=
  try_except
    (if blank product_id then raise (http_error 400 "Product ID is required")
     else
       success <- FirebaseClient.delete_product (PStr product_id) ;;
       if negb success
       then raise (http_error 500 "Failed to delete product")
       else ret (PDict [("success", PBool true);
                        ("message",
                         PStr ("Product " ++ product_id
                               ++ " deleted successfully"))]))
    (endpoint_handler "Failed to delete product: ").


Definition update_product_quantity (product_id : string) (quantity : Z)
  : M pyval :=
  try_except
    (if blank product_id then raise (http_error 400 "Product ID is required")
     else if quantity <? 0
     then raise (http_error 400 "Quantity cannot be negative")
     else
       success <- FirebaseClient.update_product_quantity (PStr product_id)
                    (PInt quantity) ;;
       if negb success
       then raise (http_error 500 "Failed to update product quantity")
       else ret (PDict [("success", PBool true);
                        ("message",
                         PStr ("Product quantity updated to "
                               ++ Str.of_Z quantity));
                        ("product_id", PStr product_id);
                        ("quantity", PInt quantity)]))
    (endpoint_handler "Failed to update product quantity: ").

Definition get_user_orders (user_id : string) : M pyval :=
  try_except
    (if blank user_id then raise (http_error 400 "User ID is required")
     else
       orders <- FirebaseClient.get_user_orders (PStr user_id) ;;
       orders <- isoformat_orders orders ;;
       ret (PDict [("success", PBool true);
                   ("orders", PList orders);
                   ("count", PInt (Z.of_nat (length orders)))]))
    (endpoint_handler "Failed to fetch user orders: ").

Definition get_order (order_id : string) : M pyval :=
  try_except
    (if blank order_id then raise (http_error 400 "Order ID is required")
     else
       order <- FirebaseClient.get_order_by_id (PStr order_id) ;;
       if negb (truthy order)
       then raise (http_error 404 "Order not found")
       else
         order <- isoformat_order order ;;
         ret (PDict [("success", PBool true);
                     ("order", order);
                     ("message", PStr "Order retrieved successfully")]))
    (endpoint_handler "Failed to fetch order: ").

(** [status_update.status] is the one field of [OrderStatusUpdate]. *)
Definition update_order_status (order_id status : string) : M pyval :=
  try_except
    (if blank order_id then raise (http_error 400 "Order ID is required")
     else
       success <- FirebaseClient.update_order_status (PStr order_id)
                    (PStr status) ;;
       if negb success
       then raise (http_error 500 "Failed to update order status")
       else ret (PDict [("success", PBool true);
                        ("message",
                         PStr ("Order status updated to " ++ status));
                        ("order_id", PStr order_id);
                        ("status", PStr status)]))
    (endpoint_handler "Failed to update order status: ").


End Routes.

(** *** [POST /place_order]

    [OrderResponse] declares [ai_analysis] and [confirmation_message] as
    optional strings.  What the validation library makes of a value that is
    neither [None] nor a string (it converts or refuses, by version) is the
    parameter [coerce_str]. *)
Section PlaceOrder.
Context `{W : world}.
Variable coerce_str : pyval -> exn + string.





End PlaceOrder.

End Main.

(* ------------------------------------------------------------------ *)
(** ** A concrete world for the scenarios

    The theorems below hold for every [world].  The scenarios, witnesses and
    counterexamples run in a world of their own: a stub model with a canned
    reply, and a decoder for the fragment of JSON their texts are written in
    (objects, arrays, strings without escapes, integers, [true], [false],
    [null]), on which it returns what [json.loads] returns.  The messages of
    its errors are schematic: no statement below reads them. *)

Module Json.

Definition is_ws (c : ascii) : bool :=
  let n := nat_of_ascii c in
  ((n =? 32) || (n =? 9) || (n =? 10) || (n =? 13))%nat.

Fixpoint skip_ws (s : string) : string :=
  match s with
  | String c r => if is_ws c then skip_ws r else s
  | EmptyString => s
  end.

Definition is_digit (c : ascii) : bool :=
  let n := nat_of_ascii c in ((48 <=? n) && (n <=? 57))%nat.

Fixpoint digits (acc : Z) (s : string) : Z * string :=
  match s with
  | String c r =>
      if is_digit c
      then digits (10 * acc + Z.of_nat (nat_of_ascii c - 48)) r
      else (acc, s)
  | EmptyString => (acc, s)
  end.

(** [0], or a digit from 1 to 9 followed by digits; a fraction or exponent
    after it is outside the fragment. *)
Definition natural (s : string) : option (Z * string) :=
  match s with
  | String c r =>
      if Ascii.eqb c "0" then Some (0, r)
      else if is_digit c then Some (digits 0 s)
      else None
  | EmptyString => None
  end.

Definition outside_fragment (s : string) : bool :=
  match s with
  | String c _ => Ascii.eqb c "." || Ascii.eqb c "e" || Ascii.eqb c "E"
                  || is_digit c
  | EmptyString => false
  end.

Definition integer (s : string) : option (Z * string) :=
  let signed :=
    match s with
    | String c r =>
        if Ascii.eqb c "-"
        then option_map (fun zr => (- fst zr, snd zr)) (natural r)
        else natural s
    | EmptyString => None
    end in
  match signed with
  | Some (z, r) => if outside_fragment r then None else Some (z, r)
  | None => None
  end.

(** The characters of a string up to its closing quote; a backslash or a
    control character is outside the fragment. *)
Fixpoint string_body (s : string) : option (string * string) :=
  match s with
  | EmptyString => None
  | String c r =>
      if Ascii.eqb c Str.quote_char then Some (EmptyString, r)
      else if Ascii.eqb c "\" || (nat_of_ascii c <? 32)%nat then None
      else option_map (fun br => (String c (fst br), snd br)) (string_body r)
  end.

Definition keyword (k : string) (v : pyval) (s : string)
  : option (pyval * string) :=
  if String.prefix k s
  then Some (v, String.substring (String.length k)
                  (String.length s - String.length k) s)
  else None.

(** [value] reads one value; [members] and [elements] read what follows the
    opening brace or bracket, or a comma. *)
Fixpoint value (fuel : nat) (s : string) : option (pyval * string) :=
  match fuel with
  | O => None
  | S fuel' =>
      match skip_ws s with
      | EmptyString => None
      | String c r as s' =>
          if Ascii.eqb c "{" then
            match skip_ws r with
            | String c' r' =>
                if Ascii.eqb c' "}" then Some (PDict [], r')
                else members fuel' (skip_ws r) []
            | EmptyString => None
            end
          else if Ascii.eqb c "[" then
            match skip_ws r with
            | String c' r' =>
                if Ascii.eqb c' "]" then Some (PList [], r')
                else elements fuel' r []
            | EmptyString => None
            end
          else if Ascii.eqb c Str.quote_char then
            option_map (fun br => (PStr (fst br), snd br)) (string_body r)
          else if Ascii.eqb c "t" then keyword "true" (PBool true) s'
          else if Ascii.eqb c "f" then keyword "false" (PBool false) s'
          else if Ascii.eqb c "n" then keyword "null" PNone s'
          else option_map (fun zr => (PInt (fst zr), snd zr)) (integer s')
      end
  end
with members (fuel : nat) (s : string) (acc : dict)
  : option (pyval * string) :=
  match fuel with
  | O => None
  | S fuel' =>
      match s with
      | String q r =>
          if Ascii.eqb q Str.quote_char then
            match string_body r with
            | Some (k, r1) =>
                match skip_ws r1 with
                | String c r2 =>
                    if Ascii.eqb c ":" then
                      match value fuel' r2 with
                      | Some (v, r3) =>
                          match skip_ws r3 with
                          | String c' r4 =>
                              if Ascii.eqb c' "}"
                              then Some (PDict (dict_set k v acc), r4)
                              else if Ascii.eqb c' ","
                              then members fuel' (skip_ws r4) (dict_set k v acc)
                              else None
                          | EmptyString => None
                          end
                      | None => None
                      end
                    else None
                | EmptyString => None
                end
            | None => None
            end
          else None
      | EmptyString => None
      end
  end
with elements (fuel : nat) (s : string) (acc : list pyval)
  : option (pyval * string) :=
  match fuel with
  | O => None
  | S fuel' =>
      match value fuel' s with
      | Some (v, r) =>
          match skip_ws r with
          | String c r' =>
              if Ascii.eqb c "]" then Some (PList (acc ++ [v]), r')
              else if Ascii.eqb c "," then elements fuel' r' (acc ++ [v])
              else None
          | EmptyString => None
          end
      | None => None
      end
  end.

(** The whole text must be one value. *)
Definition decode (text : string) : string + pyval :=
  match value (S (String.length text)) text with
  | Some (v, rest) =>
      match skip_ws rest with
      | EmptyString => inr v
      | _ => inl "Extra data"
      end
  | None => inl "Expecting value"
  end.

End Json.

Module Demo.

(** A model that answers every prompt with [reply]. *)
Definition stub (reply : exn + string) : world :=
  {| generate_content := fun _ _ => reply;
     json_loads := Json.decode;
     json_dumps_indent2 := fun _ => "[]";
     py_repr := fun v => "<" ++ type_name v ++ ">";
     new_id := fun n => "doc" ++ Str.of_Z (Z.of_nat n);
     isoformat := fun n => "2024-01-01T00:00:00.00000" ++ Str.of_Z (Z.of_nat n)
  |}.

Definition says (text : string) : world := stub (inr (Str.dq text)).
Definition fails (msg : string) : world := stub (inl (mk_exn RemoteError msg)).

(** A reachable store holding [docs] as its products and nothing else. *)
Definition store_of (docs : list (string * dict)) : state :=
  mk_state docs [] (length docs) 0 None [].

Definition empty_store : state := store_of [].

(** A product document of the seller [user]. *)
Definition product_of (user : string) (n : nat) : string * dict :=
  ("p" ++ Str.of_Z (Z.of_nat n),
   [("name", PStr ("item " ++ Str.of_Z (Z.of_nat n)));
    ("userId", PStr user)]).

(** The required fields of a product, with the given price. *)
Definition product_fields (price : pyval) : dict :=
  [("category", PStr "Electronics");
   ("companyName", PStr "Test Company");
   ("description", PStr "A test gaming mouse for demonstration");
   ("imageUrl", PStr "https://example.com/mouse.jpg");
   ("name", PStr "Test Gaming Mouse");
   ("price", price);
   ("quantity", PInt 15);
   ("sku", PStr "TEST-MOUSE-001");
   ("userId", PStr "seller-1")].

End Demo.

(* ------------------------------------------------------------------ *)
(** ** Notions the statements below use *)

(** The state [st] with the calls [es] added to its trace. *)
Definition logged (es : list event) (st : state) : state :=
  mk_state (products st) (orders st) (added st) (ticks st) (fault st)
           (trace st ++ es).

(** The products the equality filter on [userId] selects. *)
Definition matching (user_id : pyval) (st : state) : list (string * dict) :=
  filter (Store.matches "userId" user_id) (products st).

(** The window of a page: [limit] documents from offset
    [(page - 1) * limit]. *)
Definition page_of (page limit : Z) (docs : list (string * dict))
  : list (string * dict) :=
  firstn (Z.to_nat limit) (skipn (Z.to_nat ((page - 1) * limit)) docs).

(** [c] occurs in [s]. *)
Fixpoint occurs (c : ascii) (s : string) : bool :=
  match s with
  | EmptyString => false
  | String c' r => Ascii.eqb c c' || occurs c r
  end.

(** A call that ends in failure: it raises, or returns a result object whose
    success flag is false. *)
Definition failed (out : outcome pyval) : Prop :=
  match out with
  | Raise _ => True
  | Ret v => exists r, v = PDict r /\ dict_get "success" r = Some (PBool false)
  end.

(** The callable really requires the argument [k]: every keyword call
    without [k] fails, and fails before anything is touched. *)
Definition requires (f : callable) (k : string) : Prop :=
  forall kw st, dict_get k kw = None ->
    exists out, invoke f kw st = (out, st) /\ failed out.

Definition operation_names : list string :=
  ["get_seller_products"; "get_product_details"; "create_product";
   "update_product"; "delete_product"; "search_products";
   "update_product_quantity"; "get_user_orders"; "get_order_details";
   "place_order"; "update_order_status"].

Section Observations.
Context `{W : world}.
Import GeminiAgent.

(** The state once the dispatcher has called the model. *)
Definition asked (self : agent) (query : string) (st : state) : state :=
  logged [EvGenerate (user_prompt self query)] st.

(** The outermost handler of [process_natural_language_query]. *)
Definition on_failure (e : exn) : M pyval :=
  ret (error_result ("Failed to process query: " ++ exn_msg e)).

(** What follows the parsing step. *)
Definition continue (self : agent) (parsed : pyval + pyval) : M pyval :=
  match parsed with
  | inl early => ret early
  | inr result => execute self result
  end.

(** The parsed output names nothing that can be called: [function_name] is
    absent, or falsy, or a hashable value that is no key of the registry. *)
Definition unselected (self : agent) (d : dict) : Prop :=
  match dict_get "function_name" d with
  | None => True
  | Some v =>
      truthy v = false
      \/ (hashable v = true
          /\ forall s, v = PStr s -> lookup s (available_functions self) = None)
  end.

End Observations.

(** The texts and stores of the scenarios. *)
Definition quantity_query : string :=
  "Update the quantity of product ABC123 to 25".

Definition quantity_reply : string :=
  Str.dq "{`function_name`:`update_product_quantity`,`parameters`:{`product_id`:`ABC123`,`quantity`:25},`explanation`:`...`}".

Definition quantity_parameters : pyval :=
  PDict [("product_id", PStr "ABC123"); ("quantity", PInt 25)].

Module Scenario.
Import GeminiAgent.

Definition blank_query : string := "   ".

Definition lookup_reply : string :=
  "{`function_name`:`get_product_details`,`parameters`:{`product_id`:`p1`},`explanation`:`look the product up`}".

Definition one_product : state :=
  Demo.store_of [("p1", [("name", PStr "Gaming Mouse"); ("quantity", PInt 3)])].

Definition blank_request : Main.NaturalLanguageQueryRequest :=
  Main.mk_query_request blank_query None None.

Definition create_reply : string :=
  "{`function_name`:`create_product`,`parameters`:{`category`:`Electronics`,`companyName`:`Test Company`,`description`:`A test gaming mouse for demonstration`,`imageUrl`:`https://example.com/mouse.jpg`,`name`:`Test Gaming Mouse`,`price`:0,`quantity`:15,`sku`:`TEST-MOUSE-001`,`userId`:`seller-1`},`explanation`:`create the product`}".

Definition is_add (e : event) : bool :=
  match e with EvAdd _ _ => true | _ => false end.

(** The dispatcher of the global agent, in the world [w]. *)
Definition dispatch (w : world) (query : string) (context : option dict)
  (st : state) : outcome pyval * state :=
  process_natural_language_query (W := w) (gemini_agent (W := w))
    query context st.

End Scenario.

Definition fifteen_of_seller : state :=
  Demo.store_of (map (Demo.product_of "seller-2") (seq 0 3)
                 ++ map (Demo.product_of "seller-1") (seq 3 15)).

Definition incomplete_reply : string :=
  "{`function_name`:`update_product_quantity`,`parameters`:{`product_id`:`ABC123`},`explanation`:`set the quantity`}".

Definition missing_quantity : exn :=
  type_error "GeminiAgent._update_product_quantity() missing 1 required positional argument: 'quantity'".

Definition weather_reply : string :=
  "{`function_name`:`tell_weather`,`parameters`:{},`explanation`:`No matching function found for this query`}".

Definition orders_reply : string :=
  "{`function_name`:`get_user_orders`,`parameters`:{`user_id`:`user-1`},`explanation`:`list the orders`}".

(** A store that cannot be reached. *)
Definition unreachable_store : state :=
  mk_state [] [] 0 0 (Some (mk_exn RemoteError "store unavailable")) [].

Definition stocked : state :=
  Demo.store_of [("ABC123", [("name", PStr "Gaming Mouse");
                             ("quantity", PInt 3)])].

(** The product of the test script of the repository, with a given price. *)
Definition mouse (price : float) : Main.ProductCreate :=
  Main.mk_product_create "Electronics" "Test Company"
    "A test gaming mouse for demonstration" "https://example.com/mouse.jpg"
    "Test Gaming Mouse" price 15 "TEST-MOUSE-001" "seller".

(** The store parts of two states agree (the trace apart). *)
Definition same_store (st st' : state) : Prop :=
  products st' = products st /\ orders st' = orders st
  /\ added st' = added st /\ ticks st' = ticks st /\ fault st' = fault st.

(** The [products] list of a returned page. *)
Definition products_of (out : outcome pyval) : list pyval :=
  match out with
  | Ret (PDict d) =>
      match dict_get "products" d with
      | Some (PList l) => l
      | _ => []
      end
  | _ => []
  end.



(** The document [create_order] writes, the clock reading [tick]. *)
Definition order_document (user_id : pyval) (order_data : dict) (tick : nat)
  : dict :=
  [("user_id", user_id);
   ("chat_message",
    dict_get_default "chat_message" (PStr EmptyString) order_data);
   ("order_details", dict_get_default "order_details" (PDict []) order_data);
   ("status", PStr "pending");
   ("created_at", PDatetime tick);
   ("updated_at", PDatetime (S tick))].







(** A reply that wraps its object in a sentence. *)
Definition wrapped_reply : string :=
  Str.dq "Here is the order: {`items`:[],`ai_analysis`:`two coffees`} Thank you!".

(** The clock reading under [field], 0 without one. *)
Definition tick (field : string) (doc : string * dict) : nat :=
  match Store.tick_of field doc with Some n => n | None => 0 end.


(** Unfolds the monad, leaving the plain function on states. *)
Ltac run_monad :=
  cbv [bind ret raise try_except try_except_if emit utcnow Store.call] in *.

(* ================================================================== *)
(** * Properties *)

(** ** Blank strings *)

Lemma lstrip_all_space s : Str.all_space s = true -> Str.lstrip s = EmptyString.
Proof.
  induction s as [|c r IH]; simpl; [reflexivity|].
  destruct (Str.isspace c); simpl; [exact IH | discriminate].
Qed.

Lemma rstrip_empty_all_space s :
  Str.rstrip s = EmptyString -> Str.all_space s = true.
Proof.
  induction s as [|c r IH]; simpl; [reflexivity|].
  destruct (Str.rstrip r) eqn:E; [|discriminate].
  destruct (Str.isspace c); [intros _; simpl; apply IH; reflexivity
                            | discriminate].
Qed.

Lemma lstrip_keeps_blankness s :
  Str.all_space (Str.lstrip s) = Str.all_space s.
Proof.
  induction s as [|c r IH]; simpl; [reflexivity|].
  destruct (Str.isspace c) eqn:E; simpl; [exact IH | rewrite E; reflexivity].
Qed.

(** [not s.strip()] holds exactly of the strings made of whitespace only. *)
Lemma strip_empty_iff s :
  Str.strip s = EmptyString <-> Str.all_space s = true.
Proof.
  unfold Str.strip. split; intros H.
  - rewrite <- lstrip_keeps_blankness. apply rstrip_empty_all_space, H.
  - rewrite (lstrip_all_space s H). reflexivity.
Qed.

(** ** The update operation of the agent *)

Lemma drop_none_all_none (kwargs : dict) :
  (forall k v, In (k, v) kwargs -> v = PNone) ->
  GeminiAgent.drop_none kwargs = [].
Proof.
  induction kwargs as [|[k v] r IH]; intros H; [reflexivity|].
  unfold GeminiAgent.drop_none in *. simpl.
  rewrite (H k v (or_introl eq_refl)). apply IH.
  intros k' v' Hin. apply (H k' v'). right. exact Hin.
Qed.

(** C10. For every product id and every state: when each supplied keyword
    argument of [_update_product] is [None] (in particular when none is
    supplied), the method returns [{success: False, error: "No valid update
    data provided"}] and leaves the state as it was: no call reaches the
    document store, and the stored products are unchanged. *)
Theorem C10_update_without_data_is_refused `{W : world}
  (product_id : pyval) (kwargs : dict) (st : state) :
  (forall k v, In (k, v) kwargs -> v = PNone) ->
  GeminiAgent._update_product product_id kwargs st
  = (Ret (GeminiAgent.error_result "No valid update data provided"), st).
Proof.
  intros H. unfold GeminiAgent._update_product.
  rewrite (drop_none_all_none kwargs H). reflexivity.
Qed.

(** Two keyword arguments, both [None], on a store with one product. *)
Lemma C10_update_without_data_witness :
  GeminiAgent._update_product (W := Demo.says "{}") (PStr "ABC123")
    [("name", PNone); ("price", PNone)]
    (Demo.store_of [("ABC123", [("quantity", PInt 3)])])
  = (Ret (PDict [("success", PBool false);
                 ("error", PStr "No valid update data provided")]),
     Demo.store_of [("ABC123", [("quantity", PInt 3)])]).
Proof.
  apply (C10_update_without_data_is_refused (W := Demo.says "{}")).
  intros k v [E | [E | []]]; inversion E; reflexivity.
Defined.

(** ** Pagination *)




(** What the client returns on a reachable store, for a page and a limit of
    at least one. *)
Lemma get_seller_products_run user_id page limit st :
  fault st = None -> 1 <= page -> 1 <= limit ->
  FirebaseClient.get_seller_products user_id page limit st
  = (Ret (PDict
       [("products",
         PList (map FirebaseClient.with_id
                  (page_of page limit (matching user_id st))));
        ("count",
         PInt (Z.of_nat (length (page_of page limit (matching user_id st)))));
        ("total_count", PInt (Z.of_nat (length (matching user_id st))));
        ("total_pages",
         PInt ((Z.of_nat (length (matching user_id st)) + limit - 1) / limit));
        ("current_page", PInt page);
        ("limit", PInt limit)]),
     logged [EvStream "products" "userId" user_id None None;
             EvStream "products" "userId" user_id
               (Some (PInt limit, PInt ((page - 1) * limit))) None] st).
Proof.
  intros Hf Hp Hl. destruct st as [ps os a t f tr]. simpl in Hf. subst f.
  unfold FirebaseClient.get_seller_products, Store.stream,
    FirebaseClient.floordiv.
  run_monad. simpl.
  replace (limit <? 0) with false by (symmetry; apply Z.ltb_ge; lia).
  replace ((page - 1) * limit <? 0) with false
    by (symmetry; apply Z.ltb_ge; nia).
  replace (limit =? 0) with false by (symmetry; apply Z.eqb_neq; lia).
  simpl. unfold Store.collection. simpl.
  rewrite length_map. unfold logged, matching, page_of, Store.window.
  rewrite <- app_assoc. reflexivity.
Qed.

Lemma length_page_of page limit docs :
  1 <= page -> 1 <= limit ->
  Z.of_nat (length (page_of page limit docs))
  = Z.min limit (Z.max 0 (Z.of_nat (length docs) - (page - 1) * limit)).
Proof.
  intros Hp Hl. unfold page_of.
  rewrite length_firstn, length_skipn.
  assert (0 <= (page - 1) * limit) by nia. lia.
Qed.

(** [(n + limit - 1) // limit] is the ceiling of [n / limit]. *)
Lemma ceiling_pages n limit :
  0 <= n -> 1 <= limit ->
  let pages := (n + limit - 1) / limit in
  limit * (pages - 1) < n <= limit * pages.
Proof.
  intros Hn Hl pages.
  pose proof (Z.div_mod (n + limit - 1) limit ltac:(lia)) as E.
  pose proof (Z.mod_pos_bound (n + limit - 1) limit ltac:(lia)) as B.
  fold pages in E. lia.
Qed.

(** C7. On a reachable store, for a page and a limit of at least one (the
    bounds the endpoint of main.py enforces), with [n] documents of the
    products collection matching the user id: [get_seller_products] returns
    the documents at offset [(page - 1) * limit], at most [limit] of them
    (exactly [min limit (max 0 (n - offset))]), each with its id, and
    [total_pages] is the ceiling of [n / limit]; with [n = 15], [page = 2]
    and [limit = 10] that is 5 products, [total_pages = 2] and
    [current_page = 2]. *)
Theorem C7_seller_products_page user_id page limit st :
  fault st = None -> 1 <= page -> 1 <= limit ->
  let n := Z.of_nat (length (matching user_id st)) in
  exists products total_pages st',
    FirebaseClient.get_seller_products user_id page limit st
    = (Ret (PDict [("products", PList products);
                   ("count", PInt (Z.of_nat (length products)));
                   ("total_count", PInt n);
                   ("total_pages", PInt total_pages);
                   ("current_page", PInt page);
                   ("limit", PInt limit)]), st')
    /\ products = map FirebaseClient.with_id
                    (firstn (Z.to_nat limit)
                       (skipn (Z.to_nat ((page - 1) * limit))
                          (matching user_id st)))
    /\ Z.of_nat (length products) <= limit
    /\ Z.of_nat (length products)
       = Z.min limit (Z.max 0 (n - (page - 1) * limit))
    /\ limit * (total_pages - 1) < n <= limit * total_pages
    /\ (n = 15 -> page = 2 -> limit = 10 ->
        length products = 5%nat /\ total_pages = 2).
Proof.
  intros Hf Hp Hl n.
  pose proof (length_page_of page limit (matching user_id st) Hp Hl) as Hlen.
  fold n in Hlen.
  exists (map FirebaseClient.with_id
            (page_of page limit (matching user_id st))).
  eexists _, _. rewrite length_map.
  split; [apply get_seller_products_run; assumption|].
  split; [reflexivity|]. split; [lia|]. split; [exact Hlen|].
  split; [apply ceiling_pages; lia|].
  intros Hn -> ->. fold n. rewrite Hn in *. split; [lia | reflexivity].
Qed.


(** Page 2 of 10 among fifteen products of the seller: five products, two
    pages. *)
Lemma C7_seller_products_page_witness :
  exists products st',
    FirebaseClient.get_seller_products (PStr "seller-1") 2 10 fifteen_of_seller
    = (Ret (PDict [("products", PList products);
                   ("count", PInt (Z.of_nat (length products)));
                   ("total_count", PInt 15);
                   ("total_pages", PInt 2);
                   ("current_page", PInt 2);
                   ("limit", PInt 10)]), st')
    /\ length products = 5%nat.
Proof.
  destruct (C7_seller_products_page (PStr "seller-1") 2 10 fifteen_of_seller)
    as (ps & tp & st' & E & _ & _ & _ & _ & H); [reflexivity | lia | lia |].
  destruct H as [H5 H2]; [reflexivity | reflexivity | reflexivity |].
  subst tp. exists ps, st'. split; [exact E | exact H5].
Defined.

(** ** The dispatcher, step by step *)

Section Dispatcher.
Context `{W : world}.
Import GeminiAgent.




Lemma nlq_when_model_raises self query ctx st e :
  generate_content (trace st) (user_prompt self query) = inl e ->
  process_natural_language_query self query ctx st
  = (Ret (error_result ("Failed to process query: " ++ exn_msg e)),
     asked self query st).
Proof.
  intros H. unfold process_natural_language_query, generate.
  run_monad. simpl. rewrite H. reflexivity.
Qed.

Lemma nlq_when_model_replies self query ctx st text :
  generate_content (trace st) (user_prompt self query) = inr text ->
  process_natural_language_query self query ctx st
  = try_except (parsed <- parse_response text ;; continue self parsed)
      on_failure (asked self query st).
Proof.
  intros H. unfold process_natural_language_query, generate.
  run_monad. simpl. rewrite H. reflexivity.
Qed.

(** The four ways the parsing step can go. *)
Lemma parse_direct text v st :
  json_loads text = inr v -> parse_response text st = (Ret (inr v), st).
Proof.
  intros H. unfold parse_response, loads. run_monad. rewrite H. reflexivity.
Qed.

Lemma parse_no_span text msg st :
  json_loads text = inl msg -> Str.re_search_braces text = None ->
  parse_response text st = (Ret (inl (parse_failure text)), st).
Proof.
  intros H S. unfold parse_response, loads. run_monad.
  rewrite H, S. reflexivity.
Qed.

Lemma parse_span text msg span v st :
  json_loads text = inl msg -> Str.re_search_braces text = Some span ->
  json_loads span = inr v ->
  parse_response text st = (Ret (inr v), st).
Proof.
  intros H S H'. unfold parse_response, loads. run_monad.
  rewrite H, S. simpl. rewrite H'. reflexivity.
Qed.

Lemma parse_span_fails text msg span msg' st :
  json_loads text = inl msg -> Str.re_search_braces text = Some span ->
  json_loads span = inl msg' ->
  parse_response text st = (Raise (mk_exn JSONDecodeError msg'), st).
Proof.
  intros H S H'. unfold parse_response, loads. run_monad.
  rewrite H, S. simpl. rewrite H'. reflexivity.
Qed.

(** Whatever [execute] returns is a result object with its success flag. *)
Lemma execute_envelope self result st v st' :
  execute self result st = (Ret v, st') ->
  exists r b, v = PDict r /\ dict_get "success" r = Some (PBool b).
Proof.
  unfold execute, py_get. run_monad.
  destruct result; try discriminate.
  destruct ((if truthy (dict_get_default "function_name" PNone d)
             then registered self (dict_get_default "function_name" PNone d)
             else fun st0 => (Ret None, st0)) st) as [[[f|]|e] st1];
    try discriminate.
  - destruct (invoke_star f _ st1) as [[fr|e] st2]; [|discriminate].
    intros H. inversion H; subst. eexists _, true. split; reflexivity.
  - intros H. inversion H; subst. eexists _, false. split; reflexivity.
Qed.

(** The dispatcher always returns, and what it returns is a result object
    with its success flag. *)
Lemma nlq_total self query ctx st :
  exists r b st',
    process_natural_language_query self query ctx st = (Ret (PDict r), st')
    /\ dict_get "success" r = Some (PBool b).
Proof.
  destruct (generate_content (trace st) (user_prompt self query))
    as [e|text] eqn:G.
  - rewrite (nlq_when_model_raises _ _ _ _ _ G).
    eexists _, false, _. split; reflexivity.
  - rewrite (nlq_when_model_replies _ _ _ _ _ G).
    unfold try_except at 1, bind.
    destruct (parse_response text (asked self query st))
      as [[[early|result]|e] st1] eqn:P.
    + (* the innermost return *)
      unfold parse_response, loads in P. run_monad.
      destruct (json_loads text); [|inversion P].
      simpl in P. destruct (Str.re_search_braces text).
      * destruct (json_loads s0); simpl in P; inversion P.
      * inversion P; subst. eexists _, false, _. split; reflexivity.
    + simpl. destruct (execute self result st1) as [[v|e] st2] eqn:X.
      * destruct (execute_envelope _ _ _ _ _ X) as (r & b & -> & Hs).
        exists r, b, st2. split; [reflexivity | exact Hs].
      * eexists _, false, _. split; reflexivity.
    + eexists _, false, _. split; reflexivity.
Qed.

(** The execution step when the model named a registered operation. *)
Lemma execute_registered self d fname f st :
  dict_get "function_name" d = Some (PStr fname) -> fname <> EmptyString ->
  lookup fname (available_functions self) = Some f ->
  execute self (PDict d) st
  = (function_result <-
       invoke_star f (dict_get_default "parameters" (PDict []) d) ;;
     ret (PDict [("success", PBool true);
                 ("function_called", PStr fname);
                 ("parameters", dict_get_default "parameters" (PDict []) d);
                 ("explanation",
                  dict_get_default "explanation" (PStr EmptyString) d);
                 ("result", function_result)])) st.
Proof.
  intros Hn Hne Hf. unfold execute, py_get, dict_get_default. run_monad.
  rewrite Hn. simpl.
  destruct (String.eqb fname EmptyString) eqn:E;
    [apply String.eqb_eq in E; contradiction|].
  simpl. rewrite Hf. reflexivity.
Qed.


Lemma execute_unselected self d st :
  unselected self d ->
  execute self (PDict d) st
  = (Ret (no_match self
            (dict_get_default "explanation"
               (PStr "No matching function found") d)), st).
Proof.
  unfold unselected, execute, py_get, dict_get_default. run_monad.
  destruct (dict_get "function_name" d) as [v|]; [|reflexivity].
  intros [Hf | [Hh Hk]]; [rewrite Hf; reflexivity|].
  destruct (truthy v); [|reflexivity].
  destruct v; try discriminate; try reflexivity.
  simpl. rewrite (Hk s eq_refl). reflexivity.
Qed.

(** C4. The dispatcher never lets an exception through: for every agent,
    query, context and state it returns a result object with a success flag.
    In particular, when the model's reply parses to an object naming a
    registered callable and the invocation of that callable with the parsed
    parameters raises [e], the result is [{success: False, error: "Failed to
    process query: " + str(e)}]. *)
Theorem C4_invocation_errors_are_caught self query ctx st :
  exists r b st',
    process_natural_language_query self query ctx st = (Ret (PDict r), st')
    /\ dict_get "success" r = Some (PBool b)
    /\ forall text d fname f e st1 st2,
         generate_content (trace st) (user_prompt self query) = inr text ->
         parse_response text (asked self query st)
         = (Ret (inr (PDict d)), st1) ->
         dict_get "function_name" d = Some (PStr fname) ->
         fname <> EmptyString ->
         lookup fname (available_functions self) = Some f ->
         invoke_star f (dict_get_default "parameters" (PDict []) d) st1
         = (Raise e, st2) ->
         PDict r = error_result ("Failed to process query: " ++ exn_msg e)
         /\ st' = st2.
Proof.
  destruct (nlq_total self query ctx st) as (r & b & st' & E & Hs).
  exists r, b, st'. split; [exact E|]. split; [exact Hs|].
  intros text d fname f e st1 st2 G P Hn Hne Hf Hi.
  rewrite (nlq_when_model_replies _ _ _ _ _ G) in E.
  unfold try_except at 1, bind in E. rewrite P in E. simpl in E.
  rewrite (execute_registered _ _ _ _ _ Hn Hne Hf) in E.
  unfold bind in E. rewrite Hi in E. simpl in E.
  inversion E; subst. split; reflexivity.
Qed.

(** C3, as the code has it.  The dispatcher never raises: it returns a result
    object with a success flag.  When the model replied [text]: a direct
    [json.loads text] is tried first and, if it succeeds, its value goes to
    the execution step; otherwise the text from its first opening brace to
    its last closing brace is searched; without such a span the result is
    [{success: False, error: "Failed to parse AI response", raw_response:
    text}]; with one, the span is parsed, a value goes to the execution step,
    and a second failure yields a result with [success = False]. *)
Theorem C3_parsing_policy self query ctx st :
  exists r b st',
    process_natural_language_query self query ctx st = (Ret (PDict r), st')
    /\ dict_get "success" r = Some (PBool b)
    /\ forall text,
         generate_content (trace st) (user_prompt self query) = inr text ->
         (forall v, json_loads text = inr v ->
            (Ret (PDict r), st')
            = try_except (execute self v) on_failure (asked self query st))
         /\ (forall msg, json_loads text = inl msg ->
               match Str.re_search_braces text with
               | None =>
                   PDict r = parse_failure text /\ st' = asked self query st
               | Some span =>
                   (forall v, json_loads span = inr v ->
                      (Ret (PDict r), st')
                      = try_except (execute self v) on_failure
                          (asked self query st))
                   /\ (forall msg', json_loads span = inl msg' -> b = false)
               end).
Proof.
  destruct (nlq_total self query ctx st) as (r & b & st' & E & Hs).
  exists r, b, st'. split; [exact E|]. split; [exact Hs|].
  intros text G. rewrite (nlq_when_model_replies _ _ _ _ _ G) in E.
  unfold try_except at 1, bind in E. split.
  - intros v L. rewrite (parse_direct _ _ _ L) in E. simpl in E.
    rewrite <- E. reflexivity.
  - intros msg L. destruct (Str.re_search_braces text) as [span|] eqn:S.
    + split.
      * intros v L'. rewrite (parse_span _ _ _ _ _ L S L') in E. simpl in E.
        rewrite <- E. reflexivity.
      * intros msg' L'. rewrite (parse_span_fails _ _ _ _ _ L S L') in E.
        inversion E; subst. simpl in Hs. congruence.
    + rewrite (parse_no_span _ _ _ L S) in E. simpl in E.
      inversion E; subst. split; reflexivity.
Qed.

End Dispatcher.

(** ** The registry of the global agent *)

Section Registry.
Context `{W : world}.
Import GeminiAgent.


Lemma registry_keys :
  map fst (available_functions gemini_agent) = operation_names.
Proof. reflexivity. Qed.

Lemma descriptor_names :
  map name (function_descriptions gemini_agent) = operation_names.
Proof. reflexivity. Qed.

(** C5, as the code has it.  When the parsed model output is an object whose
    [function_name] is absent, or falsy ([null], the empty string, ...), or
    a hashable value that is not a key of the registry, the dispatcher
    returns [success = False], [function_called = None], the model's
    explanation (by default "No matching function found") and, as
    [available_functions], the names of the eleven registered operations. *)
Theorem C5_no_match_result query ctx st text d st1 :
  generate_content (trace st) (user_prompt gemini_agent query) = inr text ->
  parse_response text (asked gemini_agent query st)
  = (Ret (inr (PDict d)), st1) ->
  unselected gemini_agent d ->
  process_natural_language_query gemini_agent query ctx st
  = (Ret (PDict
       [("success", PBool false);
        ("function_called", PNone);
        ("explanation",
         dict_get_default "explanation" (PStr "No matching function found") d);
        ("available_functions", PList (map PStr operation_names))]), st1)
  /\ map fst (available_functions gemini_agent) = operation_names
  /\ length operation_names = 11%nat.
Proof.
  intros G P U. split; [|split; reflexivity].
  rewrite (nlq_when_model_replies _ _ _ _ _ G).
  unfold try_except at 1, bind. rewrite P. simpl.
  rewrite (execute_unselected _ _ _ U). reflexivity.
Qed.

(** The quantity update, run on any state. *)
Lemma update_product_quantity_run (id : string) (quantity : pyval) st :
  exists function_result st',
    _update_product_quantity (PStr id) quantity st = (Ret function_result, st')
    /\ (function_result
        = success_result
            (PDict [("product_id", PStr id); ("quantity", quantity)])
            ("Product quantity updated to " ++ py_str quantity)
        \/ function_result = error_result "Failed to update quantity")
    /\ trace st'
       = app (trace st)
           [EvUpdate "products" (Some id)
              [("quantity", quantity);
               ("updatedAt", PStr (isoformat (ticks st) ++ "Z"))]].
Proof.
  destruct st as [ps os a t f tr].
  unfold _update_product_quantity, FirebaseClient.update_product_quantity,
    Store.update, Store.document, Store.collection, Store.set_collection.
  run_monad. simpl. destruct f as [x|]; simpl.
  - eexists _, _. split; [reflexivity|]. split; [right|]; reflexivity.
  - destruct (Store.lookup id ps) as [old|]; simpl.
    + eexists _, _. split; [reflexivity|]. split; [left|]; reflexivity.
    + eexists _, _. split; [reflexivity|]. split; [right|]; reflexivity.
Qed.


(** C6. When the model answers the query "Update the quantity of product
    ABC123 to 25" (empty context) with the object naming
    [update_product_quantity] and the parameters [product_id = "ABC123"],
    [quantity = 25], the dispatcher calls [_update_product_quantity] with
    exactly these two arguments (one update of document ABC123 with
    quantity 25 reaches the store) and returns [success = True] with the
    result object of that call, which has a success flag of its own, under
    [result]. *)
Theorem C6_quantity_update_scenario st :
  generate_content (trace st) (user_prompt gemini_agent quantity_query)
  = inr quantity_reply ->
  json_loads quantity_reply
  = inr (PDict [("function_name", PStr "update_product_quantity");
                ("parameters", quantity_parameters);
                ("explanation", PStr "...")]) ->
  exists function_result own_flag st',
    _update_product_quantity (PStr "ABC123") (PInt 25)
      (asked gemini_agent quantity_query st) = (Ret function_result, st')
    /\ process_natural_language_query gemini_agent quantity_query (Some []) st
       = (Ret (PDict [("success", PBool true);
                      ("function_called", PStr "update_product_quantity");
                      ("parameters", quantity_parameters);
                      ("explanation", PStr "...");
                      ("result", function_result)]), st')
    /\ (exists r, function_result = PDict r
                  /\ dict_get "success" r = Some (PBool own_flag))
    /\ trace st'
       = app (trace st)
           [EvGenerate (user_prompt gemini_agent quantity_query);
            EvUpdate "products" (Some "ABC123")
              [("quantity", PInt 25);
               ("updatedAt", PStr (isoformat (ticks st) ++ "Z"))]].
Proof.
  intros G L.
  destruct (update_product_quantity_run "ABC123" (PInt 25)
              (asked gemini_agent quantity_query st))
    as (fr & st' & R & Hfr & Htr).
  exists fr, (match fr with
              | PDict (("success", PBool b) :: _) => b
              | _ => false
              end), st'.
  split; [exact R|]. split; [|split].
  - rewrite (nlq_when_model_replies _ _ _ _ _ G).
    unfold try_except at 1, bind. rewrite (parse_direct _ _ _ L). simpl.
    erewrite execute_registered;
      [| reflexivity | discriminate | reflexivity].
    unfold bind.
    match goal with
    | |- context [invoke_star ?f ?p ?s] =>
        change (invoke_star f p s)
          with (_update_product_quantity (PStr "ABC123") (PInt 25) s)
    end.
    rewrite R. reflexivity.
  - destruct Hfr as [-> | ->]; eexists; split; reflexivity.
  - rewrite Htr. unfold asked, logged. simpl. rewrite <- app_assoc.
    reflexivity.
Qed.

End Registry.

(** ** Required arguments *)

Lemma dict_get_set_other k k' v (d : dict) :
  k <> k' -> dict_get k (dict_set k' v d) = dict_get k d.
Proof.
  intros Hne. induction d as [|[k0 v0] r IH]; simpl.
  - destruct (String.eqb_spec k k'); [contradiction | reflexivity].
  - destruct (String.eqb_spec k' k0) as [->|Hk]; simpl.
    + destruct (String.eqb_spec k k0); [contradiction | reflexivity].
    + destruct (String.eqb_spec k k0); [reflexivity | exact IH].
Qed.

(** A keyword that was not passed is bound nowhere. *)
Lemma bind_keywords_absent sg k : forall kw bound extra b x,
  dict_get k kw = None ->
  bind_keywords sg kw bound extra = inr (b, x) ->
  dict_get k b = dict_get k bound /\ dict_get k x = dict_get k extra.
Proof.
  induction kw as [|[k' v] r IH]; intros bound extra b x Hk Hb; simpl in *.
  - inversion Hb; subst. split; reflexivity.
  - destruct (String.eqb_spec k k') as [->|Hne]; [discriminate|].
    destruct (String.eqb k' "self"); [discriminate|].
    destruct (is_param sg k').
    + destruct (IH _ _ _ _ Hk Hb) as [Hb' Hx]. split; [|exact Hx].
      rewrite Hb'. apply dict_get_set_other, Hne.
    + destruct (sig_var_keyword sg); [|discriminate].
      destruct (IH _ _ _ _ Hk Hb) as [Hb' Hx]. split; [exact Hb'|].
      rewrite Hx. apply dict_get_set_other, Hne.
Qed.

Lemma fill_defaults_missing k bound : forall ps,
  In (k, None) ps -> dict_get k bound = None ->
  In k (snd (fill_defaults ps bound)).
Proof.
  induction ps as [|[k' dflt] r IH]; intros Hin Hb; [contradiction|].
  simpl. destruct (fill_defaults r bound) as [args missing] eqn:E.
  destruct Hin as [Heq | Hin].
  - inversion Heq; subst. rewrite Hb. simpl. left. reflexivity.
  - specialize (IH Hin Hb). simpl in IH.
    destruct (dict_get k' bound); [exact IH|].
    destruct dflt; simpl; [exact IH | right; exact IH].
Qed.

Lemma required_params_in sg k :
  In k (required_params sg) -> In (k, None) (sig_params sg).
Proof.
  unfold required_params. rewrite in_map_iff.
  intros [[k' dflt] [<- Hin]]. apply filter_In in Hin.
  destruct Hin as [Hin Hd]. destruct dflt; [discriminate | exact Hin].
Qed.

(** A call that leaves out a parameter without default raises. *)
Lemma bind_arguments_missing sg k kw :
  In k (required_params sg) -> dict_get k kw = None ->
  exists e, bind_arguments sg kw = inl e.
Proof.
  intros Hin Hk. unfold bind_arguments.
  destruct (bind_keywords sg kw [] []) as [e|[bound extra]] eqn:B;
    [eexists; reflexivity|].
  destruct (bind_keywords_absent _ _ _ _ _ _ _ Hk B) as [Hb _].
  pose proof (fill_defaults_missing k bound (sig_params sg)
                (required_params_in _ _ Hin) Hb) as Hm.
  destruct (fill_defaults (sig_params sg) bound) as [args [|m ms]];
    [contradiction | eexists; reflexivity].
Qed.


Lemma requires_of_signature f k :
  In k (required_params (sig f)) -> requires f k.
Proof.
  intros Hin kw st Hk. unfold invoke.
  destruct (bind_arguments_missing _ _ _ Hin Hk) as [e ->].
  exists (Raise e). split; [reflexivity | exact I].
Qed.

Section RequiredFields.
Context `{W : world}.
Import GeminiAgent.

Lemma first_missing_some k kwargs : forall fields,
  In k fields -> dict_get k kwargs = None ->
  exists f, first_missing fields kwargs = Some f.
Proof.
  induction fields as [|f r IH]; intros Hin Hk; [contradiction|].
  simpl. unfold dict_has at 1. destruct (dict_get f kwargs) eqn:E.
  - destruct Hin as [->|Hin]; [congruence | exact (IH Hin Hk)].
  - eexists; reflexivity.
Qed.

(** [_create_product] (it takes [**kwargs] only) has no named parameter, but checks its list
    of required fields before it does anything else. *)
Lemma requires_of_required_fields sg k :
  sig_params sg = [] ->
  In k required_fields ->
  requires (mk_callable sg (fun _ kwargs => _create_product kwargs)) k.
Proof.
  intros Hp Hin kw st Hk. unfold invoke, bind_arguments. cbn [sig body].
  rewrite Hp.
  destruct (bind_keywords sg kw [] []) as [e|[bound extra]] eqn:B; simpl.
  - exists (Raise e). split; [reflexivity | exact I].
  - destruct (bind_keywords_absent _ _ _ _ _ _ _ Hk B) as [_ Hx].
    simpl in Hx. destruct (first_missing_some k extra _ Hin Hx) as [f Hf].
    unfold _create_product. run_monad. rewrite Hf.
    eexists. split; [reflexivity|]. eexists. split; reflexivity.
Qed.

(** C9. The registry of the agent is consistent: there are eleven
    descriptors, no operation name occurs twice among them, the keys of the
    callable mapping are the descriptor names (in the same order, none
    twice), and every parameter a descriptor declares as required (its text
    says neither "(optional)" nor "(default: ...)") is required by the
    callable registered under that name: a call without it fails before
    touching anything. *)
Theorem C9_registry_consistent :
  length (function_descriptions gemini_agent) = 11%nat
  /\ NoDup (map name (function_descriptions gemini_agent))
  /\ NoDup (map fst (available_functions gemini_agent))
  /\ map name (function_descriptions gemini_agent)
     = map fst (available_functions gemini_agent)
  /\ forall d, In d (function_descriptions gemini_agent) ->
       exists f, lookup (name d) (available_functions gemini_agent) = Some f
                 /\ forall k, In k (declared_required d) -> requires f k.
Proof.
  split; [reflexivity|].
  assert (Hnd : NoDup operation_names).
  { unfold operation_names.
    repeat (constructor; [simpl; intuition discriminate|]). constructor. }
  split; [exact Hnd|]. split; [exact Hnd|]. split; [reflexivity|].
  intros d Hin. simpl in Hin.
  repeat (destruct Hin as [<- | Hin]); try contradiction;
    (eexists; split; [reflexivity|]);
    intros k Hk; cbv in Hk;
    repeat (destruct Hk as [<- | Hk]); try contradiction;
    first [ apply requires_of_signature; simpl; tauto
          | apply requires_of_required_fields; [reflexivity | simpl; tauto] ].
Qed.

End RequiredFields.

(** ** The brace search *)


Lemma from_first_open_spec s t :
  Str.from_first_open s = Some t ->
  exists pre r, s = pre ++ t /\ t = String "{" r /\ occurs "{" pre = false.
Proof.
  revert t. induction s as [|c s IH]; intros t H; simpl in H; [discriminate|].
  destruct (Ascii.eqb_spec c "{") as [->|Hc].
  - inversion H; subst. exists EmptyString, s. repeat split; reflexivity.
  - destruct (IH _ H) as (pre & r & -> & -> & Hp).
    exists (String c pre), r. repeat split. cbn [occurs]. rewrite Hp.
    replace (Ascii.eqb "{" c) with false; [reflexivity|].
    symmetry. apply Ascii.eqb_neq. congruence.
Qed.

Lemma through_last_close_none s :
  Str.through_last_close s = None -> occurs "}" s = false.
Proof.
  induction s as [|c s IH]; cbn [Str.through_last_close occurs];
    [reflexivity|].
  destruct (Str.through_last_close s); [discriminate|].
  destruct (Ascii.eqb_spec c "}") as [->|Hc]; [discriminate|].
  intros _. rewrite (IH eq_refl).
  replace (Ascii.eqb "}" c) with false; [reflexivity|].
  symmetry. apply Ascii.eqb_neq. congruence.
Qed.

Lemma through_last_close_spec s m :
  Str.through_last_close s = Some m ->
  exists body post, m = body ++ "}" /\ s = m ++ post
                    /\ occurs "}" post = false.
Proof.
  revert m. induction s as [|c s IH]; intros m H; simpl in H; [discriminate|].
  destruct (Str.through_last_close s) as [m'|] eqn:E.
  - inversion H; subst. destruct (IH _ eq_refl) as (body & post & -> & -> & Hp).
    exists (String c body), post. repeat split. exact Hp.
  - destruct (Ascii.eqb_spec c "}") as [->|Hc]; [|discriminate].
    inversion H; subst. exists EmptyString, s. repeat split.
    apply through_last_close_none, E.
Qed.

(** A match of the search runs from the first opening brace of the text to
    its last closing brace. *)
Lemma re_search_braces_spec text span :
  Str.re_search_braces text = Some span ->
  exists pre body post,
    text = pre ++ span ++ post
    /\ span = String "{" (body ++ "}")
    /\ occurs "{" pre = false
    /\ occurs "}" post = false.
Proof.
  unfold Str.re_search_braces.
  destruct (Str.from_first_open text) as [t|] eqn:F; [|discriminate].
  destruct (from_first_open_spec _ _ F) as (pre & r & -> & -> & Hpre).
  intros H. destruct (through_last_close_spec _ _ H)
    as (body & post & -> & Ht & Hpost).
  destruct body as [|b body]; simpl in Ht; inversion Ht; subst.
  exists pre, body, post. repeat split; assumption.
Qed.

(** There is no match exactly when no closing brace follows the first
    opening brace. *)
Lemma re_search_braces_none text :
  Str.re_search_braces text = None ->
  Str.from_first_open text = None
  \/ exists pre t, text = pre ++ t /\ occurs "{" pre = false
                   /\ occurs "}" t = false.
Proof.
  unfold Str.re_search_braces.
  destruct (Str.from_first_open text) as [t|] eqn:F; [|left; reflexivity].
  intros H. right. destruct (from_first_open_spec _ _ F) as (pre & r & E & _ & Hp).
  exists pre, t. repeat split; [exact E | exact Hp |].
  apply through_last_close_none, H.
Qed.

(** On a reply that holds one object without inner braces, between texts
    without braces, the search of the code and the scan for the first
    balanced region find the same text. *)
Lemma from_first_open_skip pre r :
  occurs "{" pre = false ->
  Str.from_first_open (pre ++ String "{" r) = Some (String "{" r).
Proof.
  induction pre as [|c pre IH]; intros H; [reflexivity|].
  cbn [occurs] in H. apply orb_false_iff in H. destruct H as [Hc Hp].
  cbn [append Str.from_first_open]. rewrite Ascii.eqb_sym, Hc. exact (IH Hp).
Qed.

Lemma through_last_close_no_close s :
  occurs "}" s = false -> Str.through_last_close s = None.
Proof.
  induction s as [|c s IH]; intros H; [reflexivity|].
  cbn [occurs] in H. apply orb_false_iff in H. destruct H as [Hc Hp].
  cbn [Str.through_last_close]. rewrite (IH Hp), Ascii.eqb_sym, Hc.
  reflexivity.
Qed.

Lemma through_last_close_flat body post :
  occurs "}" post = false ->
  Str.through_last_close (body ++ String "}" post) = Some (body ++ "}").
Proof.
  intros Hp. induction body as [|c body IH]; cbn [append Str.through_last_close].
  - rewrite (through_last_close_no_close _ Hp). reflexivity.
  - rewrite IH. reflexivity.
Qed.

Lemma balanced_prefix_flat body post :
  occurs "{" body = false -> occurs "}" body = false ->
  Str.balanced_prefix 1 (body ++ String "}" post) = Some (body ++ "}").
Proof.
  induction body as [|c body IH]; intros Ho Hc; [reflexivity|].
  cbn [occurs] in Ho, Hc.
  apply orb_false_iff in Ho. apply orb_false_iff in Hc.
  destruct Ho as [Ho Ho']. destruct Hc as [Hc Hc'].
  cbn [append Str.balanced_prefix].
  rewrite Ascii.eqb_sym, Ho, Ascii.eqb_sym, Hc, (IH Ho' Hc'). reflexivity.
Qed.

Lemma first_balanced_region_skip pre r m :
  occurs "{" pre = false ->
  Str.balanced_prefix 0 (String "{" r) = Some m ->
  Str.first_balanced_region (pre ++ String "{" r) = Some m.
Proof.
  intros Hp Hm. induction pre as [|c pre IH].
  - cbn [append Str.first_balanced_region]. rewrite Hm. reflexivity.
  - cbn [occurs] in Hp. apply orb_false_iff in Hp. destruct Hp as [Hc Hp].
    cbn [append Str.first_balanced_region]. rewrite Ascii.eqb_sym, Hc.
    exact (IH Hp).
Qed.

Lemma searches_agree_on_flat_object pre body post :
  occurs "{" pre = false ->
  occurs "{" body = false -> occurs "}" body = false ->
  occurs "}" post = false ->
  Str.re_search_braces (pre ++ String "{" (body ++ String "}" post))
  = Some (String "{" (body ++ "}"))
  /\ Str.first_balanced_region (pre ++ String "{" (body ++ String "}" post))
     = Some (String "{" (body ++ "}")).
Proof.
  intros Hpre Hbo Hbc Hpost. split.
  - unfold Str.re_search_braces. rewrite (from_first_open_skip _ _ Hpre).
    cbn [Str.through_last_close].
    rewrite (through_last_close_flat _ _ Hpost). reflexivity.
  - apply first_balanced_region_skip; [exact Hpre|].
    cbn [Str.balanced_prefix]. rewrite Ascii.eqb_refl.
    rewrite (balanced_prefix_flat _ _ Hbo Hbc). reflexivity.
Qed.

(** ** Blank queries *)

Section BlankQuery.
Context `{W : world}.

(** C1, as the code has it.  A query that is empty or made of whitespace
    only is refused by the endpoint of main.py, which raises HTTPException
    400 "Query is required" and leaves the state as it was: neither the
    agent nor the text-generation client is called.  The method of the agent
    has no such check: for this query as for any other, its first action is
    the call to the text-generation client, whose reply or exception decides
    the result. *)
Theorem C1_blank_query_rejected_by_endpoint request st :
  Str.all_space (Main.query request) = true ->
  Main.process_natural_language_query request st
  = (Raise (Main.http_error 400 "Query is required"), st)
  /\ forall self ctx,
       trace (asked self (Main.query request) st)
       = app (trace st)
           [EvGenerate (GeminiAgent.user_prompt self (Main.query request))]
       /\ (forall e,
             generate_content (trace st)
               (GeminiAgent.user_prompt self (Main.query request)) = inl e ->
             GeminiAgent.process_natural_language_query self
               (Main.query request) ctx st
             = (Ret (GeminiAgent.error_result
                       ("Failed to process query: " ++ exn_msg e)),
                asked self (Main.query request) st))
       /\ (forall text,
             generate_content (trace st)
               (GeminiAgent.user_prompt self (Main.query request)) = inr text ->
             GeminiAgent.process_natural_language_query self
               (Main.query request) ctx st
             = try_except
                 (parsed <- GeminiAgent.parse_response text ;;
                  continue self parsed)
                 on_failure (asked self (Main.query request) st)).
Proof.
  intros Hb. split.
  - unfold Main.process_natural_language_query. run_monad.
    apply strip_empty_iff in Hb. rewrite Hb. reflexivity.
  - intros self ctx. split; [reflexivity|]. split.
    + intros e. apply nlq_when_model_raises.
    + intros text. apply nlq_when_model_replies.
Qed.

End BlankQuery.

(** ** The order intake pipeline *)

Section Intake.
Context `{W : world}.
Import GeminiService.

(** C2, as the code has it.  When the text-generation client raises [e]
    during [process_order_message], the pipeline returns a well-formed result
    with [success = False], the error "Failed to process order: " + str(e),
    and order details whose item list is empty and whose [ai_analysis] is
    "Failed to process with AI". *)
Theorem C2_model_failure_result chat_message user_id st e :
  generate_content (trace st) (order_prompt chat_message user_id) = inl e ->
  process_order_message chat_message user_id st
  = (Ret (PDict
       [("success", PBool false);
        ("error", PStr ("Failed to process order: " ++ exn_msg e));
        ("order_details",
         PDict [("items", PList []);
                ("special_instructions", PStr EmptyString);
                ("delivery_preference", PStr "not specified");
                ("additional_requirements", PStr EmptyString);
                ("ai_analysis", PStr "Failed to process with AI")])]),
     logged [EvGenerate (order_prompt chat_message user_id)] st).
Proof.
  intros G. unfold process_order_message, GeminiAgent.generate.
  run_monad. simpl. rewrite G. reflexivity.
Qed.

(** Where the one-item placeholder does come from: a reply without a brace
    span, or with a span that [json.loads] refuses. *)
Lemma placeholder_without_span ai_response original_message st :
  Str.re_search_braces ai_response = None ->
  _parse_ai_response ai_response original_message st
  = (Ret (order_details_of placeholder_items (PStr EmptyString)
            (PStr "not specified") (PStr EmptyString)
            (PStr (Str.take 200 ai_response))), st).
Proof.
  intros S. unfold _parse_ai_response. run_monad. rewrite S. reflexivity.
Qed.

Lemma placeholder_with_bad_span ai_response original_message span msg st :
  Str.re_search_braces ai_response = Some span ->
  json_loads span = inl msg ->
  _parse_ai_response ai_response original_message st
  = (Ret (order_details_of placeholder_items (PStr EmptyString)
            (PStr "not specified") (PStr EmptyString)
            (PStr ("Original message: " ++ original_message))), st).
Proof.
  intros S L. unfold _parse_ai_response, GeminiAgent.loads. run_monad.
  rewrite S. simpl. rewrite L. reflexivity.
Qed.

End Intake.

(** ** Product creation *)

Section Creation.
Context `{W : world}.

Lemma not_blank_strip s :
  Str.all_space s = false -> String.eqb (Str.strip s) EmptyString = false.
Proof.
  intros H. apply String.eqb_neq. intros E. apply strip_empty_iff in E.
  congruence.
Qed.

(** The endpoint refuses a price of zero or less before any store call. *)
Lemma create_product_endpoint_refuses product_data st :
  Str.all_space (Main.name product_data) = false ->
  PrimFloat.leb (Main.price product_data) 0%float = true ->
  Main.create_product product_data st
  = (Raise (Main.http_error 400 "Price must be greater than 0"), st).
Proof.
  intros Hn Hp. unfold Main.create_product. run_monad.
  rewrite (not_blank_strip _ Hn), Hp. reflexivity.
Qed.

(** On a reachable store the endpoint creates a valid product and returns
    the identifier the store assigned. *)
Lemma create_product_endpoint_accepts product_data st :
  Str.all_space (Main.name product_data) = false ->
  PrimFloat.leb (Main.price product_data) 0%float = false ->
  0 <= Main.quantity product_data ->
  fault st = None ->
  exists st',
    Main.create_product product_data st
    = (Ret (PDict [("success", PBool true);
                   ("product_id", PStr (new_id (added st)));
                   ("message", PStr "Product created successfully");
                   ("data", PDict (Main.product_dict product_data))]), st')
    /\ exists data, trace st' = app (trace st) [EvAdd "products" data]
                    /\ dict_get "price" data
                       = Some (PFloat (Main.price product_data)).
Proof.
  intros Hn Hp Hq Hf. destruct st as [ps os a t f tr]. simpl in Hf. subst f.
  unfold Main.create_product, FirebaseClient.create_product, Store.add,
    Store.collection, Store.set_collection.
  run_monad. rewrite (not_blank_strip _ Hn), Hp.
  replace (Main.quantity product_data <? 0) with false
    by (symmetry; apply Z.ltb_ge; exact Hq).
  simpl. eexists. split; [reflexivity|]. eexists. split; reflexivity.
Qed.

(** The create operation of the agent checks that the required fields are
    present and nothing else: on a reachable store, whatever the price, the
    document is added. *)
Lemma agent_create_product_any_price price st :
  fault st = None ->
  exists st',
    GeminiAgent._create_product (Demo.product_fields price) st
    = (Ret (GeminiAgent.success_result
              (PDict [("product_id", PStr (new_id (added st)))])
              "Product 'Test Gaming Mouse' created successfully"), st')
    /\ exists data, trace st' = app (trace st) [EvAdd "products" data]
                    /\ dict_get "price" data = Some price.
Proof.
  intros Hf. destruct st as [ps os a t f tr]. simpl in Hf. subst f.
  unfold GeminiAgent._create_product, FirebaseClient.create_product, Store.add,
    Store.collection, Store.set_collection.
  run_monad. simpl. eexists. split; [reflexivity|].
  eexists. split; reflexivity.
Qed.

End Creation.

(** ** Scenarios, in the concrete world *)

Import Scenario GeminiAgent.

(** The endpoint refuses a query of three spaces. *)
Lemma C1_blank_query_witness :
  Str.all_space blank_query = true
  /\ Main.process_natural_language_query (W := Demo.says lookup_reply)
       blank_request one_product
     = (Raise (mk_exn (HTTPException 400) "Query is required"), one_product).
Proof.
  split; [reflexivity|].
  apply (C1_blank_query_rejected_by_endpoint (W := Demo.says lookup_reply)
           blank_request one_product).
  reflexivity.
Defined.

(** The claim C1 fails on the agent: a query of three spaces reaches the
    model, and the operation the model picks is carried out. *)
Lemma C1_agent_dispatches_blank_query :
  Str.all_space blank_query = true
  /\ (exists r,
        fst (dispatch (Demo.says lookup_reply) blank_query (Some [])
               one_product) = Ret (PDict r)
        /\ dict_get "success" r = Some (PBool true)
        /\ dict_get "function_called" r = Some (PStr "get_product_details"))
  /\ filter is_generate
       (trace (snd (dispatch (Demo.says lookup_reply) blank_query (Some [])
                      one_product)))
     = [EvGenerate
          (user_prompt (W := Demo.says lookup_reply)
             (gemini_agent (W := Demo.says lookup_reply)) blank_query)].
Proof.
  split; [reflexivity|]. split; [|vm_compute; reflexivity].
  eexists. split; [vm_compute; reflexivity|]. split; reflexivity.
Qed.

(** The intake pipeline when the model is unavailable. *)
Lemma C2_model_failure_witness :
  exists st',
    GeminiService.process_order_message (W := Demo.fails "service unavailable")
      "two pizzas, no onions" "user-1" Demo.empty_store
    = (Ret (PDict
         [("success", PBool false);
          ("error", PStr "Failed to process order: service unavailable");
          ("order_details",
           PDict [("items", PList []);
                  ("special_instructions", PStr EmptyString);
                  ("delivery_preference", PStr "not specified");
                  ("additional_requirements", PStr EmptyString);
                  ("ai_analysis", PStr "Failed to process with AI")])]), st').
Proof.
  eexists.
  apply (C2_model_failure_result (W := Demo.fails "service unavailable")
           "two pizzas, no onions" "user-1" Demo.empty_store
           (mk_exn RemoteError "service unavailable")).
  reflexivity.
Defined.

(** The claim C2 fails: when the client raises, the item list is empty, not
    the one-item placeholder, and the analysis is a fixed text, not the chat
    message. *)
Lemma C2_failure_has_no_placeholder :
  exists r details,
    fst (GeminiService.process_order_message
           (W := Demo.fails "service unavailable")
           "two pizzas, no onions" "user-1" Demo.empty_store)
    = Ret (PDict r)
    /\ dict_get "order_details" r = Some (PDict details)
    /\ dict_get "items" details = Some (PList [])
    /\ PList [] <> GeminiService.placeholder_items
    /\ dict_get "ai_analysis" details
       = Some (PStr "Failed to process with AI")
    /\ PStr "Failed to process with AI" <> PStr "two pizzas, no onions"
    /\ dict_get "ai_analysis" r = None.
Proof.
  eexists _, _. split; [vm_compute; reflexivity|].
  repeat split; try reflexivity; discriminate.
Qed.

(** A reply without braces: the failure carries the raw text. *)
Lemma C3_parsing_policy_witness :
  exists st',
    dispatch (Demo.says "I cannot help with that") "hello" None
      Demo.empty_store
    = (Ret (PDict [("success", PBool false);
                   ("error", PStr "Failed to parse AI response");
                   ("raw_response", PStr "I cannot help with that")]), st').
Proof.
  destruct (C3_parsing_policy (W := Demo.says "I cannot help with that")
              (gemini_agent (W := Demo.says "I cannot help with that"))
              "hello" None Demo.empty_store)
    as (r & b & st' & E & _ & H).
  destruct (H _ eq_refl) as [_ H2].
  destruct (H2 _ eq_refl) as [Hr _].
  exists st'. unfold dispatch. rewrite E, Hr. reflexivity.
Defined.

(** The claim C3 fails twice.  A reply whose brace span does not parse gives
    a failed result without the raw text.  And the span searched is not the
    first balanced region: in "see {} or {x}" that region is "{}", which
    parses, but the dispatcher retries on "{} or {x}" and fails. *)
Lemma C3_second_failure_drops_raw_text :
  (exists r,
     fst (dispatch (Demo.says "{x}") "hello" None Demo.empty_store)
     = Ret (PDict r)
     /\ Str.re_search_braces "{x}" = Some "{x}"
     /\ Str.first_balanced_region "{x}" = Some "{x}"
     /\ dict_get "success" r = Some (PBool false)
     /\ dict_get "raw_response" r = None)
  /\ (exists r,
        fst (dispatch (Demo.says "see {} or {x}") "hello" None
               Demo.empty_store) = Ret (PDict r)
        /\ Str.first_balanced_region "see {} or {x}" = Some "{}"
        /\ Json.decode "{}" = inr (PDict [])
        /\ Str.re_search_braces "see {} or {x}" = Some "{} or {x}"
        /\ dict_get "success" r = Some (PBool false)
        /\ dict_get "available_functions" r = None
        /\ dict_get "raw_response" r = None).
Proof.
  split; eexists; (split; [vm_compute; reflexivity|]);
    repeat split; reflexivity.
Qed.



(** The model leaves out [quantity]: the call raises a TypeError, which the
    dispatcher reports. *)
Lemma C4_invocation_errors_witness :
  exists st',
    dispatch (Demo.says incomplete_reply) "set the quantity of ABC123" None
      one_product
    = (Ret (PDict [("success", PBool false);
                   ("error",
                    PStr ("Failed to process query: "
                          ++ exn_msg missing_quantity))]), st').
Proof.
  destruct (C4_invocation_errors_are_caught (W := Demo.says incomplete_reply)
              (gemini_agent (W := Demo.says incomplete_reply))
              "set the quantity of ABC123" None one_product)
    as (r & b & st' & E & _ & H).
  destruct (H (Str.dq incomplete_reply)
              [("function_name", PStr "update_product_quantity");
               ("parameters", PDict [("product_id", PStr "ABC123")]);
               ("explanation", PStr "set the quantity")]
              "update_product_quantity"
              (method "_update_product_quantity"
                 [("product_id", None); ("quantity", None)] false
                 (fun a _ =>
                    _update_product_quantity (W := Demo.says incomplete_reply)
                      (arg a "product_id") (arg a "quantity")))
              missing_quantity
              (asked (W := Demo.says incomplete_reply)
                 (gemini_agent (W := Demo.says incomplete_reply))
                 "set the quantity of ABC123" one_product)
              (asked (W := Demo.says incomplete_reply)
                 (gemini_agent (W := Demo.says incomplete_reply))
                 "set the quantity of ABC123" one_product))
    as [Hr _];
    [ reflexivity | vm_compute; reflexivity | reflexivity | discriminate
    | reflexivity | vm_compute; reflexivity |].
  exists st'. unfold dispatch. rewrite E, Hr. reflexivity.
Defined.


(** A failure inside an operation is the operation's to report: with the
    store out of reach, [_get_user_orders] answers [success = False] itself,
    under a dispatch that succeeded. *)
Lemma store_fault_is_reported_by_the_operation :
  fst (dispatch (Demo.says orders_reply) "Show me my recent orders" None
         unreachable_store)
  = Ret (PDict [("success", PBool true);
                ("function_called", PStr "get_user_orders");
                ("parameters", PDict [("user_id", PStr "user-1")]);
                ("explanation", PStr "list the orders");
                ("result", PDict [("success", PBool false);
                                  ("error", PStr "store unavailable")])]).
Proof. vm_compute. reflexivity. Qed.

(** The model names an operation that is not registered. *)
Lemma C5_no_match_witness :
  exists st',
    dispatch (Demo.says weather_reply) "Tell me about the weather" None
      Demo.empty_store
    = (Ret (PDict
         [("success", PBool false);
          ("function_called", PNone);
          ("explanation", PStr "No matching function found for this query");
          ("available_functions",
           PList [PStr "get_seller_products"; PStr "get_product_details";
                  PStr "create_product"; PStr "update_product";
                  PStr "delete_product"; PStr "search_products";
                  PStr "update_product_quantity"; PStr "get_user_orders";
                  PStr "get_order_details"; PStr "place_order";
                  PStr "update_order_status"])]), st').
Proof.
  exists (asked (W := Demo.says weather_reply)
            (gemini_agent (W := Demo.says weather_reply))
            "Tell me about the weather" Demo.empty_store).
  refine (proj1 (C5_no_match_result (W := Demo.says weather_reply)
                   "Tell me about the weather" None Demo.empty_store
                   (Str.dq weather_reply)
                   [("function_name", PStr "tell_weather");
                    ("parameters", PDict []);
                    ("explanation",
                     PStr "No matching function found for this query")]
                   _ eq_refl _ _)).
  - vm_compute; reflexivity.
  - right. split; [reflexivity|]. intros s E. inversion E. reflexivity.
Defined.

(** The claim C5 fails when the name is not a key of the registry because it
    cannot be a key at all: for the list [[1]] the membership test raises,
    and the result is the general failure, without [function_called] and
    without [available_functions]. *)
Lemma C5_unhashable_name_is_an_error :
  Json.decode (Str.dq "{`function_name`: [1]}")
  = inr (PDict [("function_name", PList [PInt 1])])
  /\ (forall s, PList [PInt 1] <> PStr s)
  /\ exists r,
       fst (dispatch (Demo.says "{`function_name`: [1]}") "hello" None
              Demo.empty_store) = Ret (PDict r)
       /\ dict_get "success" r = Some (PBool false)
       /\ dict_get "function_called" r = None
       /\ dict_get "available_functions" r = None.
Proof.
  split; [reflexivity|]. split; [discriminate|].
  eexists. split; [vm_compute; reflexivity|]. repeat split; reflexivity.
Qed.


(** The scenario on a store that holds product ABC123. *)
Lemma C6_quantity_update_witness :
  exists st',
    dispatch (Demo.stub (inr quantity_reply)) quantity_query (Some []) stocked
    = (Ret (PDict
         [("success", PBool true);
          ("function_called", PStr "update_product_quantity");
          ("parameters",
           PDict [("product_id", PStr "ABC123"); ("quantity", PInt 25)]);
          ("explanation", PStr "...");
          ("result",
           PDict [("success", PBool true);
                  ("data", PDict [("product_id", PStr "ABC123");
                                  ("quantity", PInt 25)]);
                  ("message", PStr "Product quantity updated to 25")])]), st')
    /\ Store.lookup "ABC123" (products st')
       = Some [("name", PStr "Gaming Mouse"); ("quantity", PInt 25);
               ("updatedAt", PStr "2024-01-01T00:00:00.000000Z")].
Proof.
  assert (L : json_loads (world := Demo.stub (inr quantity_reply))
                quantity_reply
              = inr (PDict [("function_name", PStr "update_product_quantity");
                            ("parameters", quantity_parameters);
                            ("explanation", PStr "...")]))
    by (vm_compute; reflexivity).
  destruct (C6_quantity_update_scenario (W := Demo.stub (inr quantity_reply))
              stocked eq_refl L)
    as (fr & flag & st' & R & E & _ & _).
  exists st'. unfold dispatch. rewrite E.
  vm_compute in R. inversion R; subst. split; reflexivity.
Defined.

(** C8 fails on the agent.  The model asks for [create_product] with all the
    required fields and [price = 0]: the dispatcher answers [success = True]
    with the identifier of the new document, and the document, price 0, is
    in the store. *)
Theorem C8_agent_creates_product_priced_zero :
  exists st',
    dispatch (Demo.says create_reply) "Create a product priced 0" None
      Demo.empty_store
    = (Ret (PDict
         [("success", PBool true);
          ("function_called", PStr "create_product");
          ("parameters", PDict (Demo.product_fields (PInt 0)));
          ("explanation", PStr "create the product");
          ("result",
           PDict [("success", PBool true);
                  ("data", PDict [("product_id", PStr "doc0")]);
                  ("message",
                   PStr "Product 'Test Gaming Mouse' created successfully")])]),
       st')
    /\ option_map (dict_get "price") (Store.lookup "doc0" (products st'))
       = Some (Some (PInt 0))
    /\ length (filter is_add (trace st')) = 1%nat.
Proof.
  eexists. split; [vm_compute; reflexivity|]. split; reflexivity.
Qed.


(** The endpoint of main.py, for comparison: price 0 is refused before any
    store call, price 49.99 with quantity 15 is created. *)
Lemma endpoint_refuses_price_zero :
  Main.create_product (W := Demo.says "{}") (mouse 0%float) Demo.empty_store
  = (Raise (mk_exn (HTTPException 400) "Price must be greater than 0"),
     Demo.empty_store).
Proof.
  apply (create_product_endpoint_refuses (W := Demo.says "{}"));
    reflexivity.
Qed.

Lemma endpoint_accepts_valid_product :
  exists st',
    Main.create_product (W := Demo.says "{}") (mouse 49.99%float)
      Demo.empty_store
    = (Ret (PDict [("success", PBool true);
                   ("product_id", PStr "doc0");
                   ("message", PStr "Product created successfully");
                   ("data", PDict (Main.product_dict (mouse 49.99%float)))]),
       st')
    /\ "doc0" <> EmptyString.
Proof.
  destruct (create_product_endpoint_accepts (W := Demo.says "{}")
              (mouse 49.99%float) Demo.empty_store)
    as (st' & E & _); [reflexivity | reflexivity | simpl; lia | reflexivity |].
  exists st'. split; [exact E | discriminate].
Qed.

(* ================================================================== *)
(** * Further properties of the code *)

(** ** Dicts and collections *)

Lemma dict_get_set_same k v (d : dict) : dict_get k (dict_set k v d) = Some v.
Proof.
  induction d as [|[k0 v0] r IH]; simpl.
  - rewrite String.eqb_refl. reflexivity.
  - destruct (String.eqb_spec k k0) as [->|Hk]; simpl.
    + rewrite String.eqb_refl. reflexivity.
    + destruct (String.eqb_spec k k0); [contradiction | exact IH].
Qed.

Lemma lookup_app_new k d docs :
  Store.lookup k docs = None -> Store.lookup k (docs ++ [(k, d)]) = Some d.
Proof.
  induction docs as [|[k0 d0] r IH]; simpl; intros H.
  - rewrite String.eqb_refl. reflexivity.
  - destruct (String.eqb k k0); [discriminate | exact (IH H)].
Qed.

Lemma lookup_app_old k k' d docs :
  k' <> k -> Store.lookup k' (docs ++ [(k, d)]) = Store.lookup k' docs.
Proof.
  intros Hne. induction docs as [|[k0 d0] r IH]; simpl.
  - destruct (String.eqb_spec k' k); [contradiction | reflexivity].
  - destruct (String.eqb k' k0); [reflexivity | exact IH].
Qed.

Lemma lookup_replace_same k d docs old :
  Store.lookup k docs = Some old ->
  Store.lookup k (Store.replace k d docs) = Some d.
Proof.
  induction docs as [|[k0 d0] r IH]; simpl; intros H; [discriminate|].
  destruct (String.eqb_spec k k0) as [->|Hk]; simpl.
  - rewrite String.eqb_refl. reflexivity.
  - destruct (String.eqb_spec k k0); [contradiction | exact (IH H)].
Qed.

Lemma lookup_replace_other k k' d docs :
  k' <> k -> Store.lookup k' (Store.replace k d docs) = Store.lookup k' docs.
Proof.
  intros Hne. induction docs as [|[k0 d0] r IH]; simpl; [reflexivity|].
  destruct (String.eqb_spec k k0) as [->|Hk]; simpl.
  - destruct (String.eqb_spec k' k0); [contradiction | reflexivity].
  - destruct (String.eqb k' k0); [reflexivity | exact IH].
Qed.

Lemma lookup_remove_same k docs :
  Store.lookup k (Store.remove k docs) = None.
Proof.
  unfold Store.remove. induction docs as [|[k0 d0] r IH]; simpl; [reflexivity|].
  destruct (String.eqb_spec k k0) as [->|Hk]; simpl; [exact IH|].
  destruct (String.eqb_spec k k0); [contradiction | exact IH].
Qed.

Lemma lookup_remove_other k k' docs :
  k' <> k -> Store.lookup k' (Store.remove k docs) = Store.lookup k' docs.
Proof.
  intros Hne. unfold Store.remove.
  induction docs as [|[k0 d0] r IH]; simpl; [reflexivity|].
  destruct (String.eqb_spec k k0) as [->|Hk]; simpl.
  - destruct (String.eqb_spec k' k0); [contradiction | exact IH].
  - destruct (String.eqb k' k0); [reflexivity | exact IH].
Qed.

(** ** Products: what is written can be read back *)

Section ProductRoundTrips.
Context `{W : world}.

(** X1. On a reachable store that assigns a fresh identifier,
    [create_product] returns that identifier, and [get_product_by_id] on it
    then returns the data that was passed, with [createdAt] and [updatedAt]
    set to the same timestamp (the clock reading followed by "Z") and with
    the identifier under [id]; the products that were there are untouched. *)
Theorem X1_create_then_get product_data st :
  fault st = None ->
  Store.lookup (new_id (added st)) (products st) = None ->
  let id := new_id (added st) in
  let stamp := PStr (isoformat (ticks st) ++ "Z") in
  exists st1 st2,
    FirebaseClient.create_product product_data st = (Ret id, st1)
    /\ FirebaseClient.get_product_by_id (PStr id) st1
       = (Ret (PDict (dict_set "id" (PStr id)
                        (dict_set "updatedAt" stamp
                           (dict_set "createdAt" stamp product_data)))), st2)
    /\ (forall k, k <> id ->
          Store.lookup k (products st2) = Store.lookup k (products st)).
Proof.
  intros Hf Hfresh id stamp. destruct st as [ps os a t f tr].
  simpl in Hf, Hfresh. subst f. subst id stamp. simpl.
  unfold FirebaseClient.create_product, FirebaseClient.get_product_by_id,
    Store.add, Store.get, Store.document, Store.collection,
    Store.set_collection, FirebaseClient.with_id.
  run_monad. simpl. eexists _, _. split; [reflexivity|]. simpl.
  rewrite (lookup_app_new _ _ _ Hfresh). split; [reflexivity|].
  intros k Hk. simpl. apply lookup_app_old, Hk.
Qed.

(** X2. When the product exists on a reachable store,
    [update_product_quantity] returns [True]; [get_product_by_id] then shows
    the product with the new quantity and a new [updatedAt], its other fields
    as they were, and every other product is untouched. *)
Theorem X2_update_quantity_then_get id quantity old st :
  fault st = None ->
  Store.lookup id (products st) = Some old ->
  let stamp := PStr (isoformat (ticks st) ++ "Z") in
  exists st1 st2,
    FirebaseClient.update_product_quantity (PStr id) quantity st
    = (Ret true, st1)
    /\ FirebaseClient.get_product_by_id (PStr id) st1
       = (Ret (PDict (dict_set "id" (PStr id)
                        (dict_set "updatedAt" stamp
                           (dict_set "quantity" quantity old)))), st2)
    /\ (forall k, k <> id ->
          Store.lookup k (products st2) = Store.lookup k (products st))
    /\ (forall field, field <> "quantity" -> field <> "updatedAt" ->
          dict_get field (dict_set "updatedAt" stamp
                            (dict_set "quantity" quantity old))
          = dict_get field old).
Proof.
  intros Hf Hold stamp. destruct st as [ps os a t f tr].
  simpl in Hf, Hold. subst f. subst stamp. simpl.
  unfold FirebaseClient.update_product_quantity,
    FirebaseClient.get_product_by_id, Store.update, Store.get, Store.document,
    Store.collection, Store.set_collection, FirebaseClient.with_id.
  run_monad. simpl. rewrite Hold. simpl.
  eexists _, _. split; [reflexivity|]. simpl.
  rewrite (lookup_replace_same _ _ _ _ Hold). split; [reflexivity|]. split.
  - intros k Hk. simpl. apply lookup_replace_other, Hk.
  - intros field H1 H2. rewrite dict_get_set_other by exact H2.
    apply dict_get_set_other, H1.
Qed.

(** X3. An update that cannot be carried out is answered [False], never by
    an exception, and changes no document: this holds of [update_product],
    [update_product_quantity] and [update_order_status] when the document
    does not exist. *)
Theorem X3_update_of_missing_document id data quantity status st :
  fault st = None ->
  Store.lookup id (products st) = None ->
  Store.lookup id (orders st) = None ->
  (exists st', FirebaseClient.update_product (PStr id) data st
               = (Ret false, st')
               /\ products st' = products st /\ orders st' = orders st)
  /\ (exists st', FirebaseClient.update_product_quantity (PStr id) quantity st
                  = (Ret false, st')
                  /\ products st' = products st /\ orders st' = orders st)
  /\ (exists st', FirebaseClient.update_order_status (PStr id) status st
                  = (Ret false, st')
                  /\ products st' = products st /\ orders st' = orders st).
Proof.
  intros Hf Hp Ho. destruct st as [ps os a t f tr].
  simpl in Hf, Hp, Ho. subst f.
  unfold FirebaseClient.update_product, FirebaseClient.update_product_quantity,
    FirebaseClient.update_order_status, Store.update, Store.document,
    Store.collection, Store.set_collection.
  run_monad. simpl. rewrite Hp, Ho. simpl.
  repeat split; eexists; (split; [reflexivity|]); split; reflexivity.
Qed.

(** X4. On a reachable store [delete_product] returns [True] whether or not
    the product exists; afterwards [get_product_by_id] finds nothing under
    that identifier, and every other product is untouched. *)
Theorem X4_delete_then_get id st :
  fault st = None ->
  exists st1 st2,
    FirebaseClient.delete_product (PStr id) st = (Ret true, st1)
    /\ FirebaseClient.get_product_by_id (PStr id) st1 = (Ret PNone, st2)
    /\ (forall k, k <> id ->
          Store.lookup k (products st2) = Store.lookup k (products st)).
Proof.
  intros Hf. destruct st as [ps os a t f tr]. simpl in Hf. subst f.
  unfold FirebaseClient.delete_product, FirebaseClient.get_product_by_id,
    Store.delete, Store.get, Store.document, Store.collection,
    Store.set_collection.
  run_monad. simpl.
  eexists _, _. split; [reflexivity|]. simpl. rewrite lookup_remove_same.
  split; [reflexivity|].
  intros k Hk. simpl. apply lookup_remove_other, Hk.
Qed.

End ProductRoundTrips.

(** ** Reading does not write *)

Section Reads.
Context `{W : world}.

Lemma search_loop_keeps_state search_term category : forall docs acc st,
  snd (FirebaseClient.search_loop search_term category docs acc st) = st.
Proof.
  induction docs as [|doc rest IH]; intros acc st; [reflexivity|].
  cbn [FirebaseClient.search_loop].
  unfold FirebaseClient.matches_search, FirebaseClient.term_in_field,
    FirebaseClient.py_lower.
  run_monad.
  destruct search_term; try reflexivity.
  repeat match goal with
         | |- context [dict_get_default ?k ?d ?x] =>
             destruct (dict_get_default k d x); try reflexivity
         | |- context [if ?b then _ else _] =>
             destruct b; try reflexivity
         end; apply IH.
Qed.

(** X5. The reading operations of the client ([get_seller_products],
    [get_product_by_id], [search_products], [get_user_orders],
    [get_order_by_id]) leave both collections, the identifier supply and the
    clock as they were, whatever their arguments and whether they return or
    raise. *)
Theorem X5_reads_do_not_write user_id page limit id search_term category st :
  same_store st (snd (FirebaseClient.get_seller_products user_id page limit st))
  /\ same_store st (snd (FirebaseClient.get_product_by_id id st))
  /\ same_store st
       (snd (FirebaseClient.search_products user_id search_term category st))
  /\ same_store st (snd (FirebaseClient.get_user_orders user_id st))
  /\ same_store st (snd (FirebaseClient.get_order_by_id id st)).
Proof.
  destruct st as [ps os a t f tr].
  unfold same_store.
  repeat split;
    unfold FirebaseClient.get_seller_products, FirebaseClient.get_product_by_id,
      FirebaseClient.search_products, FirebaseClient.get_user_orders,
      FirebaseClient.get_order_by_id, FirebaseClient.floordiv, Store.stream,
      Store.get, Store.document, Store.collection;
    run_monad; destruct f; destruct id; simpl;
    repeat match goal with
           | |- context [if ?b then _ else _] => destruct b; simpl
           | |- context [Store.lookup ?k ?d] =>
               destruct (Store.lookup k d); simpl
           end;
    try reflexivity;
    match goal with
    | |- context [FirebaseClient.search_loop ?s ?c ?d ?acc ?st] =>
        pose proof (search_loop_keeps_state s c d acc st) as H;
        destruct (FirebaseClient.search_loop s c d acc st) as [[r|e] st'];
        simpl in H; subst st'; reflexivity
    end.
Qed.

End Reads.

(** ** The pages of a seller's products *)

Lemma firstn_plus {A} (n m : nat) (l : list A) :
  firstn (n + m) l = (firstn n l ++ firstn m (skipn n l))%list.
Proof.
  revert l. induction n as [|n IH]; intros l; [reflexivity|].
  destruct l as [|x l]; simpl.
  - rewrite firstn_nil. reflexivity.
  - rewrite IH. reflexivity.
Qed.

Lemma concat_windows {A} (size : nat) (l : list A) : forall count,
  concat (map (fun i => firstn size (skipn (i * size) l)) (seq 0 count))
  = firstn (count * size) l.
Proof.
  induction count as [|k IH]; [reflexivity|].
  rewrite seq_S, map_app, concat_app, IH. simpl.
  rewrite app_nil_r. rewrite (Nat.add_comm size), <- firstn_plus. reflexivity.
Qed.

Lemma page_of_succ i limit (docs : list (string * dict)) :
  1 <= limit ->
  page_of (Z.of_nat (S i)) limit docs
  = firstn (Z.to_nat limit) (skipn (i * Z.to_nat limit) docs).
Proof.
  intros Hl. unfold page_of. f_equal. f_equal.
  replace (Z.of_nat (S i) - 1) with (Z.of_nat i) by lia.
  rewrite Z2Nat.inj_mul by lia. rewrite Nat2Z.id. reflexivity.
Qed.

Section Pages.
Context `{W : world}.

Lemma products_of_page user_id page limit st :
  fault st = None -> 1 <= page -> 1 <= limit ->
  products_of (fst (FirebaseClient.get_seller_products user_id page limit st))
  = map FirebaseClient.with_id (page_of page limit (matching user_id st)).
Proof.
  intros Hf Hp Hl. rewrite get_seller_products_run by assumption. reflexivity.
Qed.

(** X6. On a reachable store, for a limit of at least one, the pages 1 to
    [total_pages] that [get_seller_products] returns, one after the other,
    are exactly the seller's products, each once and in the store's order;
    a page after the last is empty. *)
Theorem X6_pages_partition user_id limit st :
  fault st = None -> 1 <= limit ->
  let docs := matching user_id st in
  let total_pages :=
    Z.to_nat ((Z.of_nat (length docs) + limit - 1) / limit) in
  concat (map (fun i =>
                 products_of
                   (fst (FirebaseClient.get_seller_products user_id
                           (Z.of_nat (S i)) limit st)))
              (seq 0 total_pages))
  = map FirebaseClient.with_id docs
  /\ forall page, Z.of_nat total_pages < page ->
       products_of
         (fst (FirebaseClient.get_seller_products user_id page limit st)) = [].
Proof.
  intros Hf Hl docs total_pages.
  pose proof (ceiling_pages (Z.of_nat (length docs)) limit
                ltac:(lia) Hl) as Hc.
  cbv zeta in Hc.
  assert (Htp : Z.of_nat total_pages
                = (Z.of_nat (length docs) + limit - 1) / limit).
  { unfold total_pages. apply Z2Nat.id. apply Z.div_pos; lia. }
  rewrite <- Htp in Hc. split.
  - rewrite (map_ext_in _
               (fun i => map FirebaseClient.with_id
                           (firstn (Z.to_nat limit)
                              (skipn (i * Z.to_nat limit) docs)))).
    + rewrite <- (map_map
                    (fun i => firstn (Z.to_nat limit)
                                (skipn (i * Z.to_nat limit) docs))
                    (map FirebaseClient.with_id)).
      rewrite <- concat_map.
      rewrite (concat_windows (Z.to_nat limit) docs total_pages).
      rewrite firstn_all2; [reflexivity|]. nia.
    + intros i _. rewrite products_of_page by (try assumption; lia).
      rewrite page_of_succ by assumption. reflexivity.
  - intros page Hp. rewrite products_of_page by (try assumption; lia).
    fold docs. unfold page_of. rewrite skipn_all2; [|nia].
    rewrite firstn_nil. reflexivity.
Qed.

End Pages.

(** ** Searching *)

Section Searching.
Context `{W : world}.



Lemma lower_char_idempotent c :
  Str.lower_char (Str.lower_char c) = Str.lower_char c.
Proof. destruct c as [[] [] [] [] [] [] [] []]; reflexivity. Qed.

Lemma lower_idempotent s : Str.lower (Str.lower s) = Str.lower s.
Proof.
  induction s as [|c s IH]; [reflexivity|].
  simpl. rewrite lower_char_idempotent, IH. reflexivity.
Qed.

Lemma search_loop_lower term category : forall docs acc st,
  FirebaseClient.search_loop (PStr (Str.lower term)) category docs acc st
  = FirebaseClient.search_loop (PStr term) category docs acc st.
Proof.
  induction docs as [|doc rest IH]; intros acc st; [reflexivity|].
  cbn [FirebaseClient.search_loop].
  unfold FirebaseClient.matches_search, FirebaseClient.term_in_field,
    FirebaseClient.py_lower.
  run_monad. rewrite lower_idempotent.
  repeat match goal with
         | |- context [dict_get_default ?k ?d ?x] =>
             destruct (dict_get_default k d x); try reflexivity
         | |- context [if ?b then _ else _] =>
             destruct b; try reflexivity
         end; apply IH.
Qed.

(** X8. The search does not see the letter case of the term: searching for
    a term and for its lower-case form give the same outcome in every
    state. *)
Theorem X8_search_ignores_case user_id term category st :
  FirebaseClient.search_products user_id (PStr (Str.lower term)) category st
  = FirebaseClient.search_products user_id (PStr term) category st.
Proof.
  unfold FirebaseClient.search_products, try_except, bind.
  destruct (Store.stream "products" "userId" user_id None None st)
    as [[docs|e] st1]; [|reflexivity].
  rewrite search_loop_lower. reflexivity.
Qed.

End Searching.

(** ** Keyword calls *)

Lemma dict_get_absent k (d : dict) :
  ~ In k (map fst d) -> dict_get k d = None.
Proof.
  induction d as [|[k0 v0] r IH]; intros H; [reflexivity|].
  simpl in *. destruct (String.eqb_spec k k0) as [->|Hk].
  - exfalso. apply H. left. reflexivity.
  - apply IH. intros Hin. apply H. right. exact Hin.
Qed.

Lemma dict_get_in k v (d : dict) :
  dict_get k d = Some v -> In k (map fst d).
Proof.
  induction d as [|[k0 v0] r IH]; intros H; [discriminate|].
  simpl in *. destruct (String.eqb_spec k k0) as [->|Hk].
  - left. reflexivity.
  - right. exact (IH H).
Qed.

(** Where each keyword goes, when the keywords are taken without error. *)
Lemma bind_keywords_spec sg : forall kw bound extra b x,
  NoDup (map fst kw) ->
  bind_keywords sg kw bound extra = inr (b, x) ->
  forall k,
    dict_get k b
    = (if is_param sg k
       then match dict_get k kw with
            | Some v => Some v
            | None => dict_get k bound
            end
       else dict_get k bound)
    /\ dict_get k x
       = (if is_param sg k then dict_get k extra
          else match dict_get k kw with
               | Some v => Some v
               | None => dict_get k extra
               end).
Proof.
  induction kw as [|[k' v] r IH]; intros bound extra b x Hnd Hb k.
  - simpl in Hb. inversion Hb; subst. simpl.
    destruct (is_param sg k); split; reflexivity.
  - simpl in Hb. inversion Hnd as [|? ? Hnotin Hnd']; subst.
    destruct (String.eqb k' "self"); [discriminate|].
    destruct (is_param sg k') eqn:Hp.
    + destruct (IH _ _ _ _ Hnd' Hb k) as [Hb1 Hx1].
      simpl. destruct (String.eqb_spec k k') as [->|Hne].
      * rewrite Hp in *. rewrite (dict_get_absent _ _ Hnotin) in Hb1.
        rewrite dict_get_set_same in Hb1. split; assumption.
      * rewrite dict_get_set_other in Hb1 by exact Hne. split; assumption.
    + destruct (sig_var_keyword sg); [|discriminate].
      destruct (IH _ _ _ _ Hnd' Hb k) as [Hb1 Hx1].
      simpl. destruct (String.eqb_spec k k') as [->|Hne].
      * rewrite Hp in *. rewrite (dict_get_absent _ _ Hnotin) in Hx1.
        rewrite dict_get_set_same in Hx1. split; assumption.
      * rewrite dict_get_set_other in Hx1 by exact Hne. split; assumption.
Qed.

(** What the parameters get, when none is missing. *)
Lemma fill_defaults_spec bound : forall ps args,
  NoDup (map fst ps) ->
  fill_defaults ps bound = (args, []) ->
  map fst args = map fst ps
  /\ forall k dflt, In (k, dflt) ps ->
       dict_get k args
       = match dict_get k bound with
         | Some v => Some v
         | None => dflt
         end.
Proof.
  induction ps as [|[k0 d0] r IH]; intros args Hnd H.
  - simpl in H. inversion H; subst. split; [reflexivity | intros ? ? []].
  - simpl in H. inversion Hnd as [|? ? Hnotin Hnd']; subst.
    destruct (fill_defaults r bound) as [args' missing] eqn:E.
    assert (Hm : missing = [] /\ exists v0, args = (k0, v0) :: args'
                 /\ Some v0 = match dict_get k0 bound with
                              | Some v => Some v
                              | None => d0
                              end).
    { destruct (dict_get k0 bound) as [v|].
      - inversion H; subst. split; [reflexivity|]. eexists; split; reflexivity.
      - destruct d0 as [v|]; inversion H; subst.
        split; [reflexivity|]. eexists; split; reflexivity. }
    destruct Hm as [-> (v0 & -> & Hv0)].
    destruct (IH _ Hnd' eq_refl) as [Hkeys Hvals]. split.
    + simpl. rewrite Hkeys. reflexivity.
    + intros k dflt [Heq | Hin].
      * inversion Heq; subst. simpl. rewrite String.eqb_refl. exact Hv0.
      * simpl. destruct (String.eqb_spec k k0) as [->|Hne].
        -- exfalso. apply Hnotin. apply in_map_iff.
           exists (k0, dflt). split; [reflexivity | exact Hin].
        -- apply Hvals, Hin.
Qed.

Lemma is_param_in sg k dflt :
  In (k, dflt) (sig_params sg) -> is_param sg k = true.
Proof.
  intros Hin. unfold is_param. apply existsb_exists.
  exists (k, dflt). split; [exact Hin | apply String.eqb_refl].
Qed.

(** A keyword that names no parameter is only taken by [**kwargs]. *)
Lemma bind_keywords_unknown sg k : forall kw bound extra b x,
  is_param sg k = false -> In k (map fst kw) ->
  bind_keywords sg kw bound extra = inr (b, x) ->
  sig_var_keyword sg = true.
Proof.
  induction kw as [|[k' v] r IH]; intros bound extra b x Hk Hin B;
    [contradiction|].
  cbn [bind_keywords] in B.
  destruct (String.eqb k' "self"); [discriminate|].
  destruct Hin as [Heq | Hin].
  - simpl in Heq. subst k'. rewrite Hk in B.
    destruct (sig_var_keyword sg); [reflexivity | discriminate].
  - destruct (is_param sg k').
    + exact (IH _ _ _ _ Hk Hin B).
    + destruct (sig_var_keyword sg); [reflexivity | discriminate].
Qed.

(** X9. When a keyword call binds (the keywords being those of a dict: no
    name twice), the arguments are the parameters of the signature, in its
    order; each parameter gets the value passed under its name, or its
    default when none was passed; and a keyword that names no parameter
    reaches [**kwargs] with its value. *)
Theorem X9_keyword_binding sg kw args extra :
  NoDup (map fst (sig_params sg)) -> NoDup (map fst kw) ->
  bind_arguments sg kw = inr (args, extra) ->
  map fst args = map fst (sig_params sg)
  /\ (forall k dflt, In (k, dflt) (sig_params sg) ->
        dict_get k args = match dict_get k kw with
                          | Some v => Some v
                          | None => dflt
                          end)
  /\ (forall k, is_param sg k = false -> dict_get k extra = dict_get k kw)
  /\ (forall k, is_param sg k = false -> In k (map fst kw) ->
        sig_var_keyword sg = true).
Proof.
  intros Hps Hkw H. unfold bind_arguments in H.
  destruct (bind_keywords sg kw [] []) as [e|[bound x]] eqn:B; [discriminate|].
  destruct (fill_defaults (sig_params sg) bound) as [args' missing] eqn:F.
  destruct missing; [|discriminate]. inversion H; subst.
  destruct (fill_defaults_spec _ _ _ Hps F) as [Hkeys Hvals].
  split; [exact Hkeys|]. split; [|split].
  - intros k dflt Hin. rewrite (Hvals _ _ Hin).
    destruct (bind_keywords_spec _ _ _ _ _ _ Hkw B k) as [Hb _].
    rewrite (is_param_in _ _ _ Hin) in Hb. rewrite Hb.
    destruct (dict_get k kw); reflexivity.
  - intros k Hk. destruct (bind_keywords_spec _ _ _ _ _ _ Hkw B k) as [_ Hx].
    rewrite Hk in Hx. rewrite Hx. destruct (dict_get k kw); reflexivity.
  - intros k Hk Hin. exact (bind_keywords_unknown _ _ _ _ _ _ _ Hk Hin B).
Qed.

(** ** What the dispatcher does with its context *)

Section Contexts.
Context `{W : world}.

(** X10. The context never reaches the model or the result: the agent's
    [process_natural_language_query] behaves the same for any two contexts,
    and so the [/query] endpoint answers two requests with the same query in
    the same way, whatever their [user_id] and [context]. *)
Theorem X10_context_is_ignored :
  (forall self query context1 context2 st,
     GeminiAgent.process_natural_language_query self query context1 st
     = GeminiAgent.process_natural_language_query self query context2 st)
  /\ (forall query user_id1 context1 user_id2 context2 st,
        Main.process_natural_language_query
          (Main.mk_query_request query user_id1 context1) st
        = Main.process_natural_language_query
            (Main.mk_query_request query user_id2 context2) st).
Proof.
  assert (H : forall self query context1 context2 st,
     GeminiAgent.process_natural_language_query self query context1 st
     = GeminiAgent.process_natural_language_query self query context2 st)
    by reflexivity.
  split; [exact H|].
  intros query u1 c1 u2 c2 st. unfold Main.process_natural_language_query.
  cbn [Main.query Main.user_id Main.context]. unfold try_except, bind.
  destruct (String.eqb (Str.strip query) EmptyString); [reflexivity|].
  rewrite (H _ query _ (Some [])). symmetry. rewrite (H _ query _ (Some [])).
  reflexivity.
Qed.

End Contexts.

(** ** The order intake pipeline always answers *)

Section IntakeTotal.
Context `{W : world}.
Import GeminiService.

Lemma length_take n s : (String.length (Str.take n s) <= n)%nat.
Proof.
  revert s. induction n as [|n IH]; intros s; [simpl; lia|].
  destruct s as [|c s]; simpl; [lia|]. specialize (IH s). lia.
Qed.

(** What [_parse_ai_response] returns, case by case. *)
Lemma parse_ai_response_answers ai_response original_message st :
  exists items special delivery additional analysis,
    _parse_ai_response ai_response original_message st
    = (Ret (PDict [("items", items);
                   ("special_instructions", special);
                   ("delivery_preference", delivery);
                   ("additional_requirements", additional);
                   ("ai_analysis", analysis)]), st)
    /\ (Str.re_search_braces ai_response = None ->
          items = placeholder_items
          /\ analysis = PStr (Str.take 200 ai_response)
          /\ (String.length (Str.take 200 ai_response) <= 200)%nat)
    /\ (forall span msg,
          Str.re_search_braces ai_response = Some span ->
          json_loads span = inl msg ->
          items = placeholder_items
          /\ analysis = PStr ("Original message: " ++ original_message)).
Proof.
  unfold _parse_ai_response, GeminiAgent.loads, order_details_of, py_get.
  run_monad.
  destruct (Str.re_search_braces ai_response) as [span|].
  - destruct (json_loads span) as [msg|v] eqn:L; simpl.
    + eexists _, _, _, _, _. split; [reflexivity|].
      split; [discriminate|]. intros ? ? _ _. split; reflexivity.
    + destruct v; simpl; eexists _, _, _, _, _;
        (split; [reflexivity|]); (split; [discriminate|]);
        intros ? ? Hs Hl; inversion Hs; subst; congruence.
  - eexists _, _, _, _, _. split; [reflexivity|]. split.
    + intros _. repeat split. apply length_take.
    + discriminate.
Qed.

(** X11. [_parse_ai_response] never raises and touches nothing: for every
    reply it returns an object with exactly the five fields of an order.
    Without a brace span in the reply, or with a span that does not decode,
    the items are the one-item placeholder; the analysis is then the first
    200 characters of the reply (never more), respectively "Original
    message: " followed by the message. *)
Theorem X11_parse_ai_response_is_total ai_response original_message st :
  exists items special delivery additional analysis,
    _parse_ai_response ai_response original_message st
    = (Ret (PDict [("items", items);
                   ("special_instructions", special);
                   ("delivery_preference", delivery);
                   ("additional_requirements", additional);
                   ("ai_analysis", analysis)]), st)
    /\ (Str.re_search_braces ai_response = None ->
          items = placeholder_items
          /\ analysis = PStr (Str.take 200 ai_response)
          /\ (String.length (Str.take 200 ai_response) <= 200)%nat)
    /\ (forall span msg,
          Str.re_search_braces ai_response = Some span ->
          json_loads span = inl msg ->
          items = placeholder_items
          /\ analysis = PStr ("Original message: " ++ original_message)).
Proof. apply parse_ai_response_answers. Qed.

(** What [process_order_message] returns. *)
Lemma process_order_message_answers chat_message user_id st :
  exists r b items special delivery additional analysis,
    process_order_message chat_message user_id st
    = (Ret (PDict r), logged [EvGenerate (order_prompt chat_message user_id)] st)
    /\ dict_get "success" r = Some (PBool b)
    /\ dict_get "order_details" r
       = Some (PDict [("items", items);
                      ("special_instructions", special);
                      ("delivery_preference", delivery);
                      ("additional_requirements", additional);
                      ("ai_analysis", analysis)])
    /\ (b = true
        <-> exists text,
              generate_content (trace st) (order_prompt chat_message user_id)
              = inr text).
Proof.
  unfold process_order_message, GeminiAgent.generate. unfold try_except at 1.
  unfold bind at 1. cbn [emit].
  destruct (generate_content (trace st) (order_prompt chat_message user_id))
    as [e|text] eqn:G.
  - eexists _, false, _, _, _, _, _. split; [reflexivity|].
    split; [reflexivity|]. split; [reflexivity|].
    split; [discriminate | intros [? ?]; discriminate].
  - destruct (parse_ai_response_answers text chat_message
                (logged [EvGenerate (order_prompt chat_message user_id)] st))
      as (i & s & d & a & an & P & _).
    unfold bind. unfold logged in P. rewrite P. simpl.
    eexists _, true, _, _, _, _, _. split; [reflexivity|].
    split; [reflexivity|]. split; [reflexivity|].
    split; [intros _; eexists; reflexivity | reflexivity].
Qed.

(** X12. [process_order_message] never raises: it makes one call to the
    model, none to the store, and returns an object with a success flag and
    order details of five fields.  The flag is true exactly when the model
    answered, however badly formed the answer. *)
Theorem X12_process_order_message_answers chat_message user_id st :
  exists r b items special delivery additional analysis,
    process_order_message chat_message user_id st
    = (Ret (PDict r), logged [EvGenerate (order_prompt chat_message user_id)] st)
    /\ dict_get "success" r = Some (PBool b)
    /\ dict_get "order_details" r
       = Some (PDict [("items", items);
                      ("special_instructions", special);
                      ("delivery_preference", delivery);
                      ("additional_requirements", additional);
                      ("ai_analysis", analysis)])
    /\ (b = true
        <-> exists text,
              generate_content (trace st) (order_prompt chat_message user_id)
              = inr text).
Proof. apply process_order_message_answers. Qed.

(** What [handle_order_modification] returns. *)
Lemma handle_order_modification_answers original_order request st :
  let st1 := logged [EvGenerate (modification_prompt original_order request)]
               st in
  match generate_content (trace st) (modification_prompt original_order request)
  with
  | inr text =>
      exists items special delivery additional analysis,
        handle_order_modification original_order request st
        = (Ret (PDict
             [("success", PBool true);
              ("updated_order",
               PDict [("items", items);
                      ("special_instructions", special);
                      ("delivery_preference", delivery);
                      ("additional_requirements", additional);
                      ("ai_analysis", analysis)]);
              ("modification_summary",
               PStr ("Order modified based on: " ++ request))]), st1)
  | inl e =>
      handle_order_modification original_order request st
      = (Ret (PDict [("success", PBool false);
                     ("error",
                      PStr ("Failed to process modification: "
                            ++ exn_msg e))]), st1)
  end.
Proof.
  intros st1. subst st1.
  destruct (generate_content (trace st)
              (modification_prompt original_order request)) as [e|text] eqn:G.
  - unfold handle_order_modification, GeminiAgent.generate.
    run_monad. simpl. rewrite G. reflexivity.
  - destruct (parse_ai_response_answers text request
                (logged [EvGenerate (modification_prompt original_order
                                       request)] st))
      as (i & s & d & a & an & P & _).
    exists i, s, d, a, an.
    unfold handle_order_modification, GeminiAgent.generate, try_except, bind.
    cbn [emit]. rewrite G. unfold logged in P. rewrite P. reflexivity.
Qed.

(** X13. [handle_order_modification] never raises and makes one call to the
    model.  When the model answers, the result has [success = True], an
    updated order of five fields and the summary "Order modified based on: "
    followed by the request; when the model fails with [e], the result is
    [success = False] with the error "Failed to process modification: " and
    [str(e)], and no updated order. *)
Theorem X13_handle_order_modification_answers original_order request st :
  let st1 := logged [EvGenerate (modification_prompt original_order request)]
               st in
  match generate_content (trace st) (modification_prompt original_order request)
  with
  | inr text =>
      exists items special delivery additional analysis,
        handle_order_modification original_order request st
        = (Ret (PDict
             [("success", PBool true);
              ("updated_order",
               PDict [("items", items);
                      ("special_instructions", special);
                      ("delivery_preference", delivery);
                      ("additional_requirements", additional);
                      ("ai_analysis", analysis)]);
              ("modification_summary",
               PStr ("Order modified based on: " ++ request))]), st1)
  | inl e =>
      handle_order_modification original_order request st
      = (Ret (PDict [("success", PBool false);
                     ("error",
                      PStr ("Failed to process modification: "
                            ++ exn_msg e))]), st1)
  end.
Proof. apply handle_order_modification_answers. Qed.

End IntakeTotal.

(** ** The endpoints validate before they call *)

Section EndpointValidation.
Context `{W : world}.

Lemma blank_iff s : Main.blank s = true <-> Str.all_space s = true.
Proof.
  unfold Main.blank. rewrite String.eqb_eq. apply strip_empty_iff.
Qed.

Lemma not_blank s : Str.all_space s = false -> Main.blank s = false.
Proof.
  intros H. destruct (Main.blank s) eqn:B; [|reflexivity].
  apply blank_iff in B. congruence.
Qed.






End EndpointValidation.

(** ** Orders *)

Section Orders.
Context `{W : world}.

(** What [create_order] writes on a reachable store. *)
Lemma create_order_run user_id order_data st :
  fault st = None ->
  FirebaseClient.create_order user_id order_data st
  = (Ret (new_id (added st)),
     mk_state (products st)
       (orders st ++ [(new_id (added st),
                       order_document user_id order_data (ticks st))])
       (S (added st)) (S (S (ticks st))) None
       (trace st ++ [EvAdd "orders"
                       (order_document user_id order_data (ticks st))])).
Proof.
  intros Hf. destruct st as [ps os a t f tr]. simpl in Hf. subst f.
  unfold FirebaseClient.create_order, Store.add, Store.collection,
    Store.set_collection.
  run_monad. reflexivity.
Qed.




End Orders.

Section PlacingOrders.
Context `{W : world}.
Variable coerce_str : pyval -> exn + string.




End PlacingOrders.

Section ModifyingOrders.
Context `{W : world}.




(** X23. An order written by [create_order] on a reachable store, under a
    fresh identifier, is returned by the [get_order] endpoint with the user,
    the chat message and the details it was given, the status "pending", its
    two timestamps as ISO strings and its identifier under [id]. *)
Theorem X23_create_order_then_get_order user_id order_data st :
  fault st = None ->
  Store.lookup (new_id (added st)) (orders st) = None ->
  Str.all_space (new_id (added st)) = false ->
  let id := new_id (added st) in
  exists st1 st2,
    FirebaseClient.create_order user_id order_data st = (Ret id, st1)
    /\ Main.get_order id st1
       = (Ret (PDict
            [("success", PBool true);
             ("order",
              PDict [("user_id", user_id);
                     ("chat_message",
                      dict_get_default "chat_message" (PStr EmptyString)
                        order_data);
                     ("order_details",
                      dict_get_default "order_details" (PDict []) order_data);
                     ("status", PStr "pending");
                     ("created_at", PStr (isoformat (ticks st)));
                     ("updated_at", PStr (isoformat (S (ticks st))));
                     ("id", PStr id)]);
             ("message", PStr "Order retrieved successfully")]), st2).
Proof.
  intros Hf Hfresh Hn id. subst id. apply not_blank in Hn.
  eexists _, _. split; [apply (create_order_run _ _ _ Hf)|].
  unfold Main.get_order, FirebaseClient.get_order_by_id, Store.get,
    Store.document, Store.collection, FirebaseClient.with_id,
    Main.isoformat_order, Main.isoformat_field, Main.py_isoformat.
  run_monad. rewrite Hn. simpl.
  rewrite (lookup_app_new _ _ _ Hfresh). reflexivity.
Qed.

(** X24. Every product the agent creates on a reachable store is stored with
    a [userType], which is "seller" unless the call gave one, and with
    [createdAt] and [updatedAt] set to the same timestamp; the fields that
    were passed are stored as they came. *)
Theorem X24_agent_created_product_document kwargs st :
  fault st = None ->
  GeminiAgent.first_missing GeminiAgent.required_fields kwargs = None ->
  let stamp := PStr (isoformat (ticks st) ++ "Z") in
  exists message stored st',
    GeminiAgent._create_product kwargs st
    = (Ret (GeminiAgent.success_result
              (PDict [("product_id", PStr (new_id (added st)))]) message), st')
    /\ products st' = (products st ++ [(new_id (added st), stored)])%list
    /\ dict_get "userType" stored
       = Some (dict_get_default "userType" (PStr "seller") kwargs)
    /\ dict_get "createdAt" stored = Some stamp
    /\ dict_get "updatedAt" stored = Some stamp
    /\ (forall k v, dict_get k kwargs = Some v ->
          k <> "createdAt" -> k <> "updatedAt" ->
          dict_get k stored = Some v).
Proof.
  intros Hf Hreq stamp. subst stamp.
  destruct st as [ps os a t f tr]. simpl in Hf. subst f.
  set (kwargs' := if dict_has "userType" kwargs then kwargs
                  else dict_set "userType" (PStr "seller") kwargs).
  exists ("Product '" ++ py_str (arg kwargs' "name")
          ++ "' created successfully").
  exists (dict_set "updatedAt" (PStr (isoformat t ++ "Z"))
            (dict_set "createdAt" (PStr (isoformat t ++ "Z")) kwargs')).
  unfold GeminiAgent._create_product, FirebaseClient.create_product, Store.add,
    Store.collection, Store.set_collection.
  run_monad. rewrite Hreq. fold kwargs'. simpl.
  eexists. split; [reflexivity|]. simpl. split; [reflexivity|].
  split; [|split; [|split]].
  - rewrite !dict_get_set_other by discriminate.
    unfold kwargs', dict_has, dict_get_default.
    destruct (dict_get "userType" kwargs) eqn:E; [exact E|].
    apply dict_get_set_same.
  - rewrite dict_get_set_other by discriminate. apply dict_get_set_same.
  - apply dict_get_set_same.
  - intros k v Hk H1 H2. rewrite !dict_get_set_other by assumption.
    unfold kwargs', dict_has.
    destruct (dict_get "userType" kwargs) eqn:E; [exact Hk|].
    rewrite dict_get_set_other; [exact Hk|]. intros ->. congruence.
Qed.

End ModifyingOrders.

Section WrappedReplies.
Context `{W : world}.

Lemma re_search_braces_wrapped pre body post :
  occurs "{" pre = false -> occurs "}" post = false ->
  Str.re_search_braces (pre ++ String "{" (body ++ "}") ++ post)
  = Some (String "{" (body ++ "}")).
Proof.
  intros Hpre Hpost. unfold Str.re_search_braces.
  cbn [append]. rewrite (from_first_open_skip _ _ Hpre).
  cbn [Str.through_last_close].
  replace ((body ++ "}") ++ post) with (body ++ String "}" post).
  - rewrite (through_last_close_flat body post Hpost). reflexivity.
  - clear. induction body as [|b body IH]; cbn [append];
      [reflexivity | rewrite IH; reflexivity].
Qed.

(** X25. A reply that wraps one JSON object in other text is still
    understood, as long as no opening brace comes before the object and no
    closing brace after it.  The dispatcher, once the whole reply has failed
    to decode, decodes the object alone; the order service decodes the object
    alone at once and reads its five fields from it, with their defaults and,
    for the analysis, the first 200 characters of the whole reply. *)
Theorem X25_object_wrapped_in_text pre body post :
  occurs "{" pre = false -> occurs "}" post = false ->
  let object := String "{" (body ++ "}") in
  let text := pre ++ object ++ post in
  (forall msg v st,
     json_loads text = inl msg -> json_loads object = inr v ->
     GeminiAgent.parse_response text st = (Ret (inr v), st))
  /\ (forall d original_message st,
        json_loads object = inr (PDict d) ->
        GeminiService._parse_ai_response text original_message st
        = (Ret (PDict
             [("items", dict_get_default "items" (PList []) d);
              ("special_instructions",
               dict_get_default "special_instructions" (PStr EmptyString) d);
              ("delivery_preference",
               dict_get_default "delivery_preference" (PStr "not specified")
                 d);
              ("additional_requirements",
               dict_get_default "additional_requirements" (PStr EmptyString)
                 d);
              ("ai_analysis",
               dict_get_default "ai_analysis" (PStr (Str.take 200 text)) d)]),
           st)).
Proof.
  intros Hpre Hpost object text.
  pose proof (re_search_braces_wrapped pre body post Hpre Hpost) as S.
  fold object in S. fold text in S. split.
  - intros msg v st L L'. exact (parse_span _ _ _ _ _ L S L').
  - intros d original_message st L.
    unfold GeminiService._parse_ai_response, GeminiAgent.loads, py_get,
      GeminiService.order_details_of.
    rewrite S. run_monad. rewrite L. reflexivity.
Qed.

End WrappedReplies.

(** ** Orders of a user *)





Section MoreEndpoints.
Context `{W : world}.








End MoreEndpoints.

(* ------------------------------------------------------------------ *)
(** ** The properties above on concrete stores *)

(** A product created on the empty store is found again under "doc0". *)
Lemma X1_create_then_get_witness :
  exists st1 st2,
    FirebaseClient.create_product (W := Demo.says "{}")
      (Demo.product_fields (PInt 5)) Demo.empty_store
    = (Ret "doc0", st1)
    /\ FirebaseClient.get_product_by_id (PStr "doc0") st1
       = (Ret (PDict (Demo.product_fields (PInt 5)
                      ++ [("createdAt", PStr "2024-01-01T00:00:00.000000Z");
                          ("updatedAt", PStr "2024-01-01T00:00:00.000000Z");
                          ("id", PStr "doc0")])), st2).
Proof.
  destruct (X1_create_then_get (W := Demo.says "{}")
              (Demo.product_fields (PInt 5)) Demo.empty_store)
    as (st1 & st2 & E1 & E2 & _); [reflexivity | reflexivity |].
  exists st1, st2. split; [exact E1 | exact E2].
Defined.

(** The mouse in stock, its quantity set to 25. *)
Lemma X2_update_quantity_then_get_witness :
  exists st1 st2,
    FirebaseClient.update_product_quantity (W := Demo.says "{}")
      (PStr "ABC123") (PInt 25) stocked
    = (Ret true, st1)
    /\ FirebaseClient.get_product_by_id (PStr "ABC123")
         st1
       = (Ret (PDict [("name", PStr "Gaming Mouse");
                      ("quantity", PInt 25);
                      ("updatedAt", PStr "2024-01-01T00:00:00.000000Z");
                      ("id", PStr "ABC123")]), st2).
Proof.
  destruct (X2_update_quantity_then_get (W := Demo.says "{}") "ABC123"
              (PInt 25) [("name", PStr "Gaming Mouse"); ("quantity", PInt 3)]
              stocked)
    as (st1 & st2 & E1 & E2 & _); [reflexivity | reflexivity |].
  exists st1, st2. split; [exact E1 | exact E2].
Defined.

(** Setting the quantity of a product that is not in stock. *)
Lemma X3_update_of_missing_document_witness :
  exists st',
    FirebaseClient.update_product_quantity (W := Demo.says "{}")
      (PStr "XYZ789") (PInt 25) stocked
    = (Ret false, st')
    /\ products st' = products stocked.
Proof.
  destruct (X3_update_of_missing_document (W := Demo.says "{}") "XYZ789"
              [("name", PStr "Mouse")] (PInt 25) (PStr "shipped") stocked)
    as (_ & (st' & E & P & _) & _);
    [reflexivity | reflexivity | reflexivity |].
  exists st'. split; [exact E | exact P].
Defined.

(** Deleting the mouse in stock. *)
Lemma X4_delete_then_get_witness :
  exists st1 st2,
    FirebaseClient.delete_product (PStr "ABC123") stocked
    = (Ret true, st1)
    /\ FirebaseClient.get_product_by_id (PStr "ABC123")
         st1
       = (Ret PNone, st2).
Proof.
  destruct (X4_delete_then_get "ABC123" stocked)
    as (st1 & st2 & E1 & E2 & _); [reflexivity |].
  exists st1, st2. split; [exact E1 | exact E2].
Defined.

(** Fifteen products of the seller, ten to a page: two pages. *)
Lemma X6_pages_partition_witness :
  concat (map (fun i =>
                 products_of
                   (fst (FirebaseClient.get_seller_products (PStr "seller-1")
                           (Z.of_nat (S i)) 10 fifteen_of_seller)))
              (seq 0 2))
  = map FirebaseClient.with_id (matching (PStr "seller-1") fifteen_of_seller).
Proof.
  destruct (X6_pages_partition (PStr "seller-1") 10
              fifteen_of_seller) as [H _]; [reflexivity | lia |].
  exact H.
Defined.


(** A call of [_get_seller_products] with a user and a limit: the page takes
    its default. *)
Lemma X9_keyword_binding_witness :
  exists args extra,
    bind_arguments
      (mk_signature "GeminiAgent._get_seller_products"
         [("user_id", None); ("page", Some (PInt 1));
          ("limit", Some (PInt 10))] false)
      [("limit", PInt 5); ("user_id", PStr "seller-1")]
    = inr (args, extra)
    /\ map fst args = ["user_id"; "page"; "limit"]
    /\ dict_get "page" args = Some (PInt 1)
    /\ dict_get "limit" args = Some (PInt 5).
Proof.
  set (sg := mk_signature "GeminiAgent._get_seller_products"
               [("user_id", None); ("page", Some (PInt 1));
                ("limit", Some (PInt 10))] false).
  set (kw := [("limit", PInt 5); ("user_id", PStr "seller-1")]).
  destruct (bind_arguments sg kw) as [e | [args extra]] eqn:B;
    [vm_compute in B; discriminate|].
  assert (N1 : NoDup (map fst (sig_params sg))).
  { repeat constructor; simpl; intuition discriminate. }
  assert (N2 : NoDup (map fst kw)).
  { repeat constructor; simpl; intuition discriminate. }
  destruct (X9_keyword_binding sg kw args extra N1 N2 B) as (H1 & H2 & _).
  exists args, extra. split; [reflexivity|]. split; [exact H1|]. split.
  - apply (H2 "page" (Some (PInt 1))). right. left. reflexivity.
  - apply (H2 "limit" (Some (PInt 10))). right. right. left. reflexivity.
Defined.










(** An order for two coffees, created and read back. *)
Lemma X23_create_order_then_get_order_witness :
  exists st1 st2,
    FirebaseClient.create_order (W := Demo.says "{}") (PStr "user-1")
      [("chat_message", PStr "two coffees")] Demo.empty_store
    = (Ret "doc0", st1)
    /\ Main.get_order (W := Demo.says "{}") "doc0" st1
       = (Ret (PDict
            [("success", PBool true);
             ("order",
              PDict [("user_id", PStr "user-1");
                     ("chat_message", PStr "two coffees");
                     ("order_details", PDict []);
                     ("status", PStr "pending");
                     ("created_at", PStr "2024-01-01T00:00:00.000000");
                     ("updated_at", PStr "2024-01-01T00:00:00.000001");
                     ("id", PStr "doc0")]);
             ("message", PStr "Order retrieved successfully")]), st2).
Proof.
  destruct (X23_create_order_then_get_order (W := Demo.says "{}")
              (PStr "user-1") [("chat_message", PStr "two coffees")]
              Demo.empty_store eq_refl eq_refl eq_refl)
    as (st1 & st2 & E1 & E2).
  exists st1, st2. split; [exact E1 | exact E2].
Defined.

(** The product of the test script, created by the agent without a
    [userType]. *)
Lemma X24_agent_created_product_document_witness :
  exists stored st',
    snd (GeminiAgent._create_product (W := Demo.says "{}")
           (Demo.product_fields (PInt 5)) Demo.empty_store) = st'
    /\ products st' = [("doc0", stored)]
    /\ dict_get "userType" stored = Some (PStr "seller").
Proof.
  destruct (X24_agent_created_product_document (W := Demo.says "{}")
              (Demo.product_fields (PInt 5)) Demo.empty_store
              eq_refl eq_refl)
    as (message & stored & st' & E & P & U & _).
  exists stored, st'. split; [rewrite E; reflexivity|].
  split; [exact P | exact U].
Defined.

(** The order service on a reply that wraps its object in a sentence. *)
Lemma X25_object_wrapped_in_text_witness :
  GeminiService._parse_ai_response (W := Demo.says "{}") wrapped_reply
    "two coffees" Demo.empty_store
  = (Ret (PDict
       [("items", PList []);
        ("special_instructions", PStr EmptyString);
        ("delivery_preference", PStr "not specified");
        ("additional_requirements", PStr EmptyString);
        ("ai_analysis", PStr "two coffees")]), Demo.empty_store).
Proof.
  destruct (X25_object_wrapped_in_text (W := Demo.says "{}")
              "Here is the order: "
              (Str.dq "`items`:[],`ai_analysis`:`two coffees`")
              " Thank you!" eq_refl eq_refl) as [_ H].
  apply (H [("items", PList []); ("ai_analysis", PStr "two coffees")]
           "two coffees" Demo.empty_store).
  vm_compute. reflexivity.
Defined.





(** The order service on a reply without any brace. *)
Lemma X11_parse_ai_response_is_total_witness :
  exists special delivery additional,
    GeminiService._parse_ai_response (W := Demo.says "{}") "Noted, thank you."
      "two coffees" Demo.empty_store
    = (Ret (PDict [("items", GeminiService.placeholder_items);
                   ("special_instructions", special);
                   ("delivery_preference", delivery);
                   ("additional_requirements", additional);
                   ("ai_analysis", PStr "Noted, thank you.")]),
       Demo.empty_store).
Proof.
  destruct (X11_parse_ai_response_is_total (W := Demo.says "{}")
              "Noted, thank you." "two coffees" Demo.empty_store)
    as (items & special & delivery & additional & analysis & E & H & _).
  destruct (H eq_refl) as (-> & -> & _).
  exists special, delivery, additional. exact E.
Defined.
